(** * Custom Clerk signup flow: validation schemas and signup state machines

    A shallow embedding of the two signup routes of the repository:

    - [src/routes/sign-up.tsx]: hook [useClerkSignup], component [Signup]
      (module [SignUp] below);
    - the e-mail/username/password route: hook [useClerkSignupWithEmail],
      component [SignupEmailUsernamePassword] (module [SignUpEmail] below).

    Both files declare the same [generateRandomPassword],
    [verificationSchema], [passwordRequirementSchemas] and [passwordSchema];
    they are embedded once.

    Form values have the static types of the schemas (strings from text
    inputs, a boolean from the checkbox). Console output and the markup
    around the forms are left out; of a render only the view it selects and
    the [disabled] attribute of its submit control are kept. *)

From Stdlib Require Import List String Ascii NArith Arith Bool Lia.
Import ListNotations.

Set Implicit Arguments.

(** ** JavaScript strings and values *)

(** A JavaScript string is a sequence of UTF-16 code units; [.length] counts
    code units and the regular expressions of the source (no [u] flag) test
    code units. *)
Definition code_unit := N.
Definition jsstring := list code_unit.

(** String literals of the source, all of them ASCII. *)
Definition lit (s : string) : jsstring :=
  map N_of_ascii (list_ascii_of_string s).

Definition code_unit_eqb (a b : code_unit) : bool := N.eqb a b.

Fixpoint jsstring_eqb (a b : jsstring) : bool :=
  match a, b with
  | [], [] => true
  | x :: a', y :: b' => code_unit_eqb x y && jsstring_eqb a' b'
  | _, _ => false
  end.

(** The values that flow through the untyped positions of the source
    ([err: any], [result.status], optional result fields). *)
Inductive JsVal : Type :=
| undefined
| null
| str (s : jsstring).

(** ToBoolean: [undefined], [null] and the empty string are falsy. *)
Definition truthy (v : JsVal) : bool :=
  match v with
  | str (_ :: _) => true
  | _ => false
  end.

(** [a || b] *)
Definition js_or (a b : JsVal) : JsVal := if truthy a then a else b.

(** [a === b] *)
Definition strict_eq (a b : JsVal) : bool :=
  match a, b with
  | undefined, undefined => true
  | null, null => true
  | str s, str t => jsstring_eqb s t
  | _, _ => false
  end.

(** [s[i]]: the one-unit string at index [i], or [undefined]. *)
Definition char_at (s : jsstring) (i : N) : JsVal :=
  match nth_error s (N.to_nat i) with
  | Some c => str [c]
  | None => undefined
  end.

(** [Array.prototype.join('')] renders [undefined] and [null] as the empty
    string. *)
Definition join_empty (xs : list JsVal) : jsstring :=
  flat_map (fun v => match v with str s => s | _ => [] end) xs.

(** ** The part of zod the schemas use *)

Module Zod.

(** A regular expression that is one character class, tested with
    [RegExp.prototype.test]: some code unit of the input is in the class. *)
Record RegExp : Type := CharClass { members : code_unit -> bool }.

Definition test (re : RegExp) (s : jsstring) : bool :=
  existsb (members re) s.

Record ZodIssue : Type := { path : list string; message : string }.

Inductive ParseStatus : Type := valid | dirty | aborted.

Record ParseReturn : Type :=
  { status : ParseStatus; issues : list ZodIssue }.

(** A schema over inputs of static type [A], parsed at a path. *)
Definition Schema (A : Type) : Type := list string -> A -> ParseReturn.

Definition OK : ParseReturn := {| status := valid; issues := [] |}.

Definition merge_status (a b : ParseStatus) : ParseStatus :=
  match a, b with
  | aborted, _ | _, aborted => aborted
  | dirty, _ | _, dirty => dirty
  | valid, valid => valid
  end.

(** Checks of [ZodString] with the message of their issue: the one the
    schema passes, or zod's default text where the schema passes none. *)
Inductive StringCheck : Type :=
| min (n : nat) (msg : string)
| max (n : nat) (msg : string)
| length (n : nat) (msg : string)
| regex (re : RegExp) (msg : string)
| email (re : jsstring -> bool) (msg : string).

(** One check of [ZodString._parse]: the message of the issue it adds, if
    any. *)
Definition run_check (c : StringCheck) (s : jsstring) : option string :=
  match c with
  | min n msg => if List.length s <? n then Some msg else None
  | max n msg => if n <? List.length s then Some msg else None
  | length n msg =>
      if (n <? List.length s) || (List.length s <? n) then Some msg
      else None
  | regex re msg => if test re s then None else Some msg
  | email re msg => if re s then None else Some msg
  end.

(** One turn of the check loop of [ZodString._parse]: a failing check
    adds an issue and marks the result dirty. *)
Definition add_issue (p : list string) (s : jsstring)
           (acc : ParseReturn) (c : StringCheck) : ParseReturn :=
  match run_check c s with
  | Some m =>
      {| status := merge_status (status acc) dirty;
         issues := issues acc ++ [ {| path := p; message := m |} ] |}
  | None => acc
  end.

(** [z.string()] followed by checks, on an input that is a string: every
    check runs. *)
Definition zstring (checks : list StringCheck) : Schema jsstring :=
  fun p s => fold_left (add_issue p s) checks OK.

(** [z.boolean()] on an input that is a boolean. *)
Definition zboolean : Schema bool := fun _ _ => OK.

(** [a.pipe(b)]: [b] runs only when [a] came back valid. *)
Definition pipe {A} (a b : Schema A) : Schema A :=
  fun p x =>
    let ra := a p x in
    match status ra with
    | aborted => ra
    | dirty => ra
    | valid =>
        let rb := b p x in
        {| status := status rb; issues := issues ra ++ issues rb |}
    end.

(** [ParseStatus.mergeObjectSync]: the fields are parsed in shape order,
    the issues accumulate, an aborted field aborts the object. *)
Definition mergeObject (fields : list ParseReturn) : ParseReturn :=
  fold_left
    (fun acc r =>
       {| status := merge_status (status acc) (status r);
          issues := issues acc ++ issues r |})
    fields OK.

(** [inner.refine(check, { message, path })]: the refinement runs unless
    the inner schema aborted; a failure adds one issue at [path] below the
    current path and marks the result dirty. *)
Definition refine {A} (inner : Schema A) (check : A -> bool)
           (msg : string) (sub : list string) : Schema A :=
  fun p x =>
    let r := inner p x in
    match status r with
    | aborted => r
    | _ =>
        if check x then r
        else {| status := dirty;
                issues := issues r ++ [ {| path := p ++ sub; message := msg |} ] |}
    end.

(** [schema.safeParse(x)]: success exactly when the status is valid. *)
Definition safeParse {A} (sc : Schema A) (x : A) : list ZodIssue + A :=
  let r := sc [] x in
  match status r with
  | valid => inr x
  | _ => inl (issues r)
  end.

Definition success {A} (r : list ZodIssue + A) : bool :=
  match r with inr _ => true | inl _ => false end.

(** The resolver reports an error on a field when some issue carries the
    field's path. *)
Definition path_eqb (a b : list string) : bool :=
  if list_eq_dec string_dec a b then true else false.

Definition error_at {A} (r : list ZodIssue + A) (p : list string) : bool :=
  match r with
  | inr _ => false
  | inl iss => existsb (fun i => path_eqb (path i) p) iss
  end.

(** A result that did not abort and whose issues all sit at [p]. *)
Definition clean_at (p : list string) (r : ParseReturn) : Prop :=
  status r <> aborted /\ Forall (fun i => path i = p) (issues r).

End Zod.

(** ** Schemas shared by the two routes *)

Definition in_range (lo hi : ascii) (c : code_unit) : bool :=
  (N_of_ascii lo <=? c)%N && (c <=? N_of_ascii hi)%N.

Definition one_of (set : jsstring) (c : code_unit) : bool :=
  existsb (code_unit_eqb c) set.

(** The members of the character class of [oneSpecial]'s regular
    expression, in the order the source lists them; code unit 34 is the
    double quote, and the escaped hyphen and closing bracket stand for
    themselves. *)
Definition special_characters : jsstring :=
  lit "!@#$%^&*(),.?" ++ [34%N] ++ lit ":{}|<>-_[]".

Definition lowercase_re : Zod.RegExp := Zod.CharClass (in_range "a"%char "z"%char).
Definition uppercase_re : Zod.RegExp := Zod.CharClass (in_range "A"%char "Z"%char).
Definition digit_re : Zod.RegExp := Zod.CharClass (in_range "0"%char "9"%char).
Definition special_re : Zod.RegExp := Zod.CharClass (one_of special_characters).

Module passwordRequirementSchemas.
Definition charLength : Zod.Schema jsstring :=
  Zod.zstring [ Zod.min 8 "String must contain at least 8 character(s)";
                Zod.max 12 "String must contain at most 12 character(s)" ].
Definition oneLowercase : Zod.Schema jsstring :=
  Zod.zstring [ Zod.regex lowercase_re "Must contain lowercase letter" ].
Definition oneUppercase : Zod.Schema jsstring :=
  Zod.zstring [ Zod.regex uppercase_re "Must contain uppercase letter" ].
Definition oneNumber : Zod.Schema jsstring :=
  Zod.zstring [ Zod.regex digit_re "Must contain number" ].
Definition oneSpecial : Zod.Schema jsstring :=
  Zod.zstring [ Zod.regex special_re "Must contain special character" ].
End passwordRequirementSchemas.

Definition passwordSchema : Zod.Schema jsstring :=
  Zod.pipe
    (Zod.pipe
       (Zod.pipe
          (Zod.pipe
             (Zod.pipe (Zod.zstring [])
                       passwordRequirementSchemas.charLength)
             passwordRequirementSchemas.oneLowercase)
          passwordRequirementSchemas.oneUppercase)
       passwordRequirementSchemas.oneNumber)
    passwordRequirementSchemas.oneSpecial.

Record VerificationSchema : Type := { code : jsstring }.

(** [z.object({ code: z.string().length(6, ...) })] *)
Definition verificationSchema : Zod.Schema VerificationSchema :=
  fun p d =>
    Zod.mergeObject
      [ Zod.zstring [ Zod.length 6 "Code must be 6 characters" ]
                    (p ++ ["code"%string]) (code d) ].

(** The character classes of the password policy, by code unit: [a]-[z],
    [A]-[Z], [0]-[9] and the special-character set. *)
Definition lowercase_letter (c : code_unit) : Prop := (97 <= c <= 122)%N.
Definition uppercase_letter (c : code_unit) : Prop := (65 <= c <= 90)%N.
Definition digit (c : code_unit) : Prop := (48 <= c <= 57)%N.
Definition special_character (c : code_unit) : Prop := In c special_characters.

Definition contains (P : code_unit -> Prop) (s : jsstring) : Prop :=
  exists c, In c s /\ P c.

Definition password_accepted (s : jsstring) : bool :=
  Zod.success (Zod.safeParse passwordSchema s).

Definition code_accepted (s : jsstring) : bool :=
  Zod.success (Zod.safeParse verificationSchema {| code := s |}).

(** ** generateRandomPassword *)

Definition characters : jsstring :=
  lit "0123456789ABCDEFGHIJKLMNOPQRSTUVWXYZabcdefghijklmnopqrstuvwxyz~!@-#$".

(** [crypto.getRandomValues(new Uint32Array(12))]: twelve unsigned 32-bit
    values, read off an entropy source [rand]. *)
Definition getRandomValues (rand : nat -> N) (n : nat) : list N :=
  map (fun i => (rand i mod 2 ^ 32)%N) (seq 0 n).

Definition generateRandomPassword (rand : nat -> N) : jsstring :=
  join_empty
    (map (fun x => char_at characters (x mod N.of_nat (List.length characters))%N)
         (getRandomValues rand 12)).

(** ** The collaborator and asynchronous code *)

(** What a rejected collaborator call carries, as far as the source reads
    it: [err?.errors?.[0]?.longMessage] and [err?.message]. *)
Record ClerkAPIError : Type := { longMessage : JsVal }.

Record ErrorObject : Type :=
  { errors : option (list ClerkAPIError); message : JsVal }.

Inductive Thrown : Type :=
| thrown_nullish
| thrown_object (e : ErrorObject).

Definition first_longMessage (err : Thrown) : JsVal :=
  match err with
  | thrown_nullish => undefined
  | thrown_object e =>
      match errors e with
      | Some (x :: _) => longMessage x
      | _ => undefined
      end
  end.

Definition err_message (err : Thrown) : JsVal :=
  match err with
  | thrown_nullish => undefined
  | thrown_object e => message e
  end.

(** A method call on an undefined object. *)
Definition TypeError : Thrown :=
  thrown_object {| errors := None;
                   message := str (lit "Cannot read properties of undefined") |}.

Record SignUpResource : Type := { status : JsVal; createdSessionId : JsVal }.

(** The collaborator operations the two hooks call. *)
Inductive ClerkCall : Type -> Type :=
| signUp_create (emailAddress password username : jsstring)
  : ClerkCall SignUpResource
| signUp_prepareEmailAddressVerification (strategy : jsstring)
  : ClerkCall SignUpResource
| signUp_attemptEmailAddressVerification (code : jsstring)
  : ClerkCall SignUpResource
| setActive (session : JsVal) : ClerkCall unit.

(** The four operations, by the names the specification gives them. *)
Inductive CallKind : Type :=
| create_signup
| prepare_verification
| attempt_verification
| activate_session.

Definition kind_of {X} (c : ClerkCall X) : CallKind :=
  match c with
  | signUp_create _ _ _ => create_signup
  | signUp_prepareEmailAddressVerification _ => prepare_verification
  | signUp_attemptEmailAddressVerification _ => attempt_verification
  | setActive _ => activate_session
  end.

Inductive Settled (X : Type) : Type :=
| fulfilled (x : X)
| rejected (e : Thrown).
Arguments rejected {X} e.

(** An async function body over a React store [S]: it returns, throws,
    calls a state setter, or suspends on a collaborator call until the call
    settles. *)
Inductive Prog (S A : Type) : Type :=
| Ret (a : A)
| Throw (e : Thrown)
| Await (X : Type) (c : ClerkCall X) (k : Settled X -> Prog S A)
| SetState (u : S -> S) (k : Prog S A).
Arguments Ret {S A} a.
Arguments Throw {S A} e.
Arguments Await {S A X} c k.
Arguments SetState {S A} u k.

Fixpoint bind {S A B} (p : Prog S A) (f : A -> Prog S B) : Prog S B :=
  match p with
  | Ret a => f a
  | Throw e => Throw e
  | Await c k => Await c (fun s => bind (k s) f)
  | SetState u k => SetState u (bind k f)
  end.

(** [try { p } catch (err) { h err }] *)
Fixpoint try_catch {S A} (p : Prog S A) (h : Thrown -> Prog S A) : Prog S A :=
  match p with
  | Ret a => Ret a
  | Throw e => h e
  | Await c k => Await c (fun s => try_catch (k s) h)
  | SetState u k => SetState u (try_catch k h)
  end.

(** [try { p } finally { f }]: [f] runs on both exits of [p], which then
    completes as it did. *)
Fixpoint finally {S A} (p : Prog S A) (f : Prog S unit) : Prog S A :=
  match p with
  | Ret a => bind f (fun _ => Ret a)
  | Throw e => bind f (fun _ => Throw e)
  | Await c k => Await c (fun s => finally (k s) f)
  | SetState u k => SetState u (finally k f)
  end.

(** [await c] *)
Definition await {S X} (c : ClerkCall X) : Prog S X :=
  Await c (fun s => match s with
                    | fulfilled x => Ret x
                    | rejected e => Throw e
                    end).

Definition set {S} (u : S -> S) : Prog S unit := SetState u (Ret tt).

Declare Scope prog_scope.
Delimit Scope prog_scope with prog.
Notation "x <- p ;; q" := (bind p (fun x => q))
  (at level 61, p at next level, right associativity) : prog_scope.
Notation "p ;; q" := (bind p (fun _ => q))
  (at level 61, right associativity) : prog_scope.

(** The collaborator as an oracle: how each call settles. *)
Definition Clerk : Type := forall X, ClerkCall X -> Settled X.

Inductive Issued : Type :=
| issued (X : Type) (c : ClerkCall X).
Arguments issued {X} c.

Record Outcome (S A : Type) : Type :=
  { final : S; calls : list Issued; result : A + Thrown }.

(** Runs an async body to completion against the collaborator, recording
    the calls it issues in order. *)
Fixpoint run_from {S A} (clerk : Clerk) (p : Prog S A) (st : S)
         (log : list Issued) : Outcome S A :=
  match p with
  | Ret a => {| final := st; calls := log; result := inl a |}
  | Throw e => {| final := st; calls := log; result := inr e |}
  | Await c k => run_from clerk (k (clerk _ c)) st (log ++ [issued c])
  | SetState u k => run_from clerk k (u st) log
  end.

Definition run {S A} (clerk : Clerk) (p : Prog S A) (st : S) : Outcome S A :=
  run_from clerk p st [].

(** What [useSignUp()] hands to a render: [signUp] tells whether the
    sign-up object is defined. *)
Record UseSignUp : Type := { isLoaded : bool; signUp : bool }.

Inductive SIGNUP_STATE : Type := LOADING | ERROR | VERIFY_EMAIL | READY | DONE.

(** What a render returns, as far as the flow is concerned. A button
    without a [disabled] attribute is not disabled. *)
Inductive View : Type :=
| LoadingClerkView
| SignupFormView (submit_disabled : bool)
| VerificationFormView (submit_disabled : bool)
| DoneView
| ErrorView (shown : JsVal)
| LoadingView.

(** [form.handleSubmit(onValid)]: with a resolver the handler runs only on
    values the schema accepts; without one it always runs. *)
Definition handleSubmit {S A} (resolver : option (Zod.Schema A))
           (onValid : A -> Prog S unit) (values : A) : option (Prog S unit) :=
  match resolver with
  | None => Some (onValid values)
  | Some sc =>
      if Zod.success (Zod.safeParse sc values) then Some (onValid values)
      else None
  end.

(** The fallback chain of an error text, in the words of the
    specification: the first candidate that is available as a
    human-readable message, that is a non-empty string, and otherwise the
    fixed fallback. *)
Definition first_available (candidates : list JsVal) (fallback : string)
  : JsVal :=
  match find truthy candidates with
  | Some v => v
  | None => str (lit fallback)
  end.

(** ** The e-mail/username/password route *)

Module SignUpEmail.

Record FormSchemaWithEmail : Type :=
  { email : jsstring;
    username : jsstring;
    password : jsstring;
    confirmPassword : jsstring;
    tos : bool }.

Section Schema.
(** zod's e-mail pattern, a constant of the library. *)
Variable emailRegex : jsstring -> bool.

Definition formObjectWithEmail : Zod.Schema FormSchemaWithEmail :=
  fun p d =>
    Zod.mergeObject
      [ Zod.zstring [ Zod.email emailRegex "Please enter a valid email address" ]
                    (p ++ ["email"%string]) (email d);
        Zod.zstring [ Zod.min 4 "Username must be at least 4 characters" ]
                    (p ++ ["username"%string]) (username d);
        passwordSchema (p ++ ["password"%string]) (password d);
        Zod.zstring [] (p ++ ["confirmPassword"%string]) (confirmPassword d);
        Zod.zboolean (p ++ ["tos"%string]) (tos d) ].

Definition formSchemaWithEmail : Zod.Schema FormSchemaWithEmail :=
  Zod.refine
    (Zod.refine formObjectWithEmail
                (fun data => jsstring_eqb (password data) (confirmPassword data))
                "Passwords don't match" ["confirmPassword"%string])
    (fun data => tos data)
    "You must accept the terms of service" ["tos"%string].
End Schema.

(** The default values [useSignupFormWithEmail] installs. *)
Definition useSignupFormWithEmail_defaultValues (rand : nat -> N)
  : FormSchemaWithEmail :=
  let pwd := generateRandomPassword rand in
  {| email := lit "test@example.com";
     username := lit "testingUser";
     password := pwd;
     confirmPassword := pwd;
     tos := false |}.

(** The [useState] cells of the hook and of the component. *)
Record Store : Type :=
  { isCreating : bool;
    isVerifying : bool;
    state : SIGNUP_STATE;
    error : JsVal;
    showPassword : bool }.

Definition initial : Store :=
  {| isCreating := false; isVerifying := false; state := READY;
     error := null; showPassword := false |}.

Definition setIsCreating (b : bool) (s : Store) : Store :=
  {| isCreating := b; isVerifying := isVerifying s; state := state s;
     error := error s; showPassword := showPassword s |}.
Definition setIsVerifying (b : bool) (s : Store) : Store :=
  {| isCreating := isCreating s; isVerifying := b; state := state s;
     error := error s; showPassword := showPassword s |}.
Definition setState (v : SIGNUP_STATE) (s : Store) : Store :=
  {| isCreating := isCreating s; isVerifying := isVerifying s; state := v;
     error := error s; showPassword := showPassword s |}.
Definition setError (v : JsVal) (s : Store) : Store :=
  {| isCreating := isCreating s; isVerifying := isVerifying s; state := state s;
     error := v; showPassword := showPassword s |}.

(** The object literals [signup] and [verify] return; an absent property
    reads as [undefined]. *)
Module Result.
Record t : Type :=
  { success : bool; requiresVerification : option bool; error : JsVal }.
Definition failure (msg : JsVal) : t :=
  {| success := false; requiresVerification := None; error := msg |}.
Definition ok (rv : option bool) : t :=
  {| success := true; requiresVerification := rv; error := undefined |}.
End Result.

Local Open Scope prog_scope.

(** [err?.errors?.[0]?.longMessage || err?.message || fallback] *)
Definition error_text (err : Thrown) (fallback : string) : JsVal :=
  js_or (js_or (first_longMessage err) (err_message err)) (str (lit fallback)).

(** Past the guard [signUp] is defined; [setActive], which [useSignUp]
    hands out together with it, is then a function. *)
Definition signup (h : UseSignUp) (data : FormSchemaWithEmail)
  : Prog Store Result.t :=
  if negb (isLoaded h) || negb (signUp h) then
    Ret (Result.failure (str (lit "Clerk not loaded")))
  else
    set (setIsCreating true) ;;
    finally
      (try_catch
         (result <- await (signUp_create (email data) (password data)
                                         (username data)) ;;
          if strict_eq (status result) (str (lit "missing_requirements")) then
            _ <- await (signUp_prepareEmailAddressVerification
                          (lit "email_code")) ;;
            Ret (Result.ok (Some true))
          else if strict_eq (status result) (str (lit "complete")) then
            _ <- await (setActive (createdSessionId result)) ;;
            Ret (Result.ok (Some false))
          else
            Ret (Result.failure (str (lit "Unexpected signup status"))))
         (fun err => Ret (Result.failure (error_text err "Signup failed"))))
      (set (setIsCreating false)).

Definition verify (h : UseSignUp) (code : jsstring) : Prog Store Result.t :=
  if negb (isLoaded h) || negb (signUp h) then
    Ret (Result.failure (str (lit "Clerk not loaded")))
  else
    set (setIsVerifying true) ;;
    finally
      (try_catch
         (result <- await (signUp_attemptEmailAddressVerification code) ;;
          if strict_eq (status result) (str (lit "complete")) then
            _ <- await (setActive (createdSessionId result)) ;;
            Ret (Result.ok None)
          else
            Ret (Result.failure (str (lit "Verification failed"))))
         (fun err =>
            Ret (Result.failure (error_text err "Verification failed"))))
      (set (setIsVerifying false)).

Definition onSignup (h : UseSignUp) (data : FormSchemaWithEmail)
  : Prog Store unit :=
  set (setError null) ;;
  result <- signup h data ;;
  if Result.success result then
    match Result.requiresVerification result with
    | Some true => set (setState VERIFY_EMAIL)
    | _ => set (setState DONE)
    end
  else
    set (setError (Result.error result)) ;;
    set (setState ERROR).

Definition onVerification (h : UseSignUp) (data : VerificationSchema)
  : Prog Store unit :=
  set (setError null) ;;
  result <- verify h (code data) ;;
  if Result.success result then set (setState DONE)
  else
    set (setError (Result.error result)) ;;
    set (setState ERROR).

(** The click handler of the "Try Again" button. *)
Definition onTryAgain (s : Store) : Store := setError null (setState READY s).

(** What a render sees besides the store. *)
Record Env : Type := { hook : UseSignUp; formState_isValid : bool }.

Definition render (e : Env) (s : Store) : View :=
  if negb (isLoaded (hook e)) then LoadingClerkView
  else
    match state s with
    | READY => SignupFormView (negb (formState_isValid e) || isCreating s)
    | VERIFY_EMAIL => VerificationFormView (isVerifying s)
    | DONE => DoneView
    | ERROR => ErrorView (error s)
    | LOADING => LoadingView
    end.

End SignUpEmail.

(** ** The route of [src/routes/sign-up.tsx] *)

Module SignUp.

Record FormSchema : Type :=
  { username : jsstring;
    password : jsstring;
    confirmPassword : jsstring;
    tos : bool }.

Definition formObject : Zod.Schema FormSchema :=
  fun p d =>
    Zod.mergeObject
      [ Zod.zstring [ Zod.min 4 "String must contain at least 4 character(s)" ]
                    (p ++ ["username"%string]) (username d);
        passwordSchema (p ++ ["password"%string]) (password d);
        Zod.zstring [] (p ++ ["confirmPassword"%string]) (confirmPassword d);
        Zod.zboolean (p ++ ["tos"%string]) (tos d) ].

Definition formSchema : Zod.Schema FormSchema :=
  Zod.refine
    (Zod.refine formObject
                (fun data => jsstring_eqb (password data) (confirmPassword data))
                "Passwords don't match" ["confirmPassword"%string])
    (fun data => tos data)
    "You must accept the terms of service" ["tos"%string].

(** The state cell of the hook [useClerkSignup]. *)
Inductive HookState : Type :=
| hook_idle | hook_loading | hook_error | hook_success | hook_verify.

(** The [useState] cells of the hook ([hook_state]) and of the component
    ([state], [err]). *)
Record Store : Type :=
  { hook_state : HookState; state : SIGNUP_STATE; err : JsVal }.

Definition initial : Store :=
  {| hook_state := hook_idle; state := READY; err := undefined |}.

Definition setHookState (v : HookState) (s : Store) : Store :=
  {| hook_state := v; state := state s; err := err s |}.
Definition setState (v : SIGNUP_STATE) (s : Store) : Store :=
  {| hook_state := hook_state s; state := v; err := err s |}.
Definition setErr (v : JsVal) (s : Store) : Store :=
  {| hook_state := hook_state s; state := state s; err := v |}.

Definition email : jsstring := lit "tomek.buszewski+clerk_test@gmail.com".

Local Open Scope prog_scope.

(** A method call on [signUp]: a [TypeError] when the object is
    undefined. *)
Definition on_signUp {X} (h : UseSignUp) (c : ClerkCall X) : Prog Store X :=
  if signUp h then await c else Throw TypeError.

(** Returns the status string, or [undefined]. *)
Definition signup (h : UseSignUp) (data : FormSchema) (email : jsstring)
  : Prog Store JsVal :=
  if negb (isLoaded h) then Ret undefined
  else
    set (setHookState hook_loading) ;;
    try_catch
      (_ <- on_signUp h (signUp_create email (password data) (username data)) ;;
       result <- on_signUp h (signUp_prepareEmailAddressVerification
                                (lit "email_code")) ;;
       set (setHookState hook_verify) ;;
       Ret (status result))
      (fun _ => set (setHookState hook_error) ;; Ret undefined).

Definition verify (h : UseSignUp) (code : jsstring) : Prog Store JsVal :=
  if negb (isLoaded h) then Ret undefined
  else
    try_catch
      (result <- on_signUp h (signUp_attemptEmailAddressVerification code) ;;
       Ret (status result))
      (fun _ => set (setHookState hook_error) ;; Ret undefined).

Definition onSignup (h : UseSignUp) (data : FormSchema) : Prog Store unit :=
  result <- signup h data email ;;
  if strict_eq result (str (lit "complete")) then set (setState VERIFY_EMAIL)
  else
    set (setErr result) ;;
    set (setState ERROR).

Definition onVerification (h : UseSignUp) (data : VerificationSchema)
  : Prog Store unit :=
  result <- verify h (code data) ;;
  if strict_eq result (str (lit "complete")) then set (setState DONE)
  else set (setState ERROR).

Definition render (s : Store) : View :=
  match state s with
  | READY => SignupFormView false
  | VERIFY_EMAIL => VerificationFormView false
  | DONE => DoneView
  | ERROR => ErrorView (err s)
  | LOADING => LoadingView
  end.

End SignUp.

(** ** The page as a transition system

    A handler started by a user event runs until it returns or suspends on
    a collaborator call; a suspended handler resumes when its call settles.
    A submit event reaches its handler only through a form whose submit
    control is rendered and not disabled. *)

Section Machine.
Variables (S Env SignupValues VerificationValues : Type).
Variable render : Env -> S -> View.
Variable submitSignup : Env -> SignupValues -> option (Prog S unit).
Variable submitVerification :
  Env -> VerificationValues -> option (Prog S unit).
Variable tryAgain : option (S -> S).

(** A handler waiting on a collaborator call. *)
Record Suspended : Type :=
  { awaited_type : Type;
    awaited : ClerkCall awaited_type;
    resume : Settled awaited_type -> Prog S unit }.

Fixpoint advance (p : Prog S unit) (st : S) : S * option Suspended :=
  match p with
  | Ret _ => (st, None)
  | Throw _ => (st, None)
  | SetState u k => advance k (u st)
  | Await c k => (st, Some {| awaited := c; resume := k |})
  end.

Record Config : Type := { store : S; in_flight : list Suspended }.

Definition suspended (o : option Suspended) : list Suspended :=
  match o with
  | Some s => [s]
  | None => []
  end.

Definition start (p : Prog S unit) (cfg : Config) : Config :=
  {| store := fst (advance p (store cfg));
     in_flight := in_flight cfg ++ suspended (snd (advance p (store cfg))) |}.

Inductive step : Config -> Config -> Prop :=
| step_submit_signup e values p cfg :
    render e (store cfg) = SignupFormView false ->
    submitSignup e values = Some p ->
    step cfg (start p cfg)
| step_submit_verification e values p cfg :
    render e (store cfg) = VerificationFormView false ->
    submitVerification e values = Some p ->
    step cfg (start p cfg)
| step_try_again e shown f cfg :
    render e (store cfg) = ErrorView shown ->
    tryAgain = Some f ->
    step cfg {| store := f (store cfg); in_flight := in_flight cfg |}
| step_settle cfg before s after (x : Settled (awaited_type s)) :
    in_flight cfg = before ++ s :: after ->
    step cfg
         {| store := fst (advance (resume s x) (store cfg));
            in_flight :=
              before ++ suspended (snd (advance (resume s x) (store cfg)))
                     ++ after |}.

Inductive reachable (init : S) : Config -> Prop :=
| reachable_init : reachable init {| store := init; in_flight := [] |}
| reachable_step cfg cfg' :
    reachable init cfg -> step cfg cfg' -> reachable init cfg'.

(** Some submit control the page renders accepts a click. *)
Definition submit_enabled (e : Env) (st : S) : bool :=
  match render e st with
  | SignupFormView false => true
  | VerificationFormView false => true
  | _ => false
  end.

(** At every suspension of [p] started in [st] the store satisfies [I]
    for the awaited call, and it satisfies [F] when [p] has finished; the
    store is not touched while [p] waits. *)
Fixpoint holds_while (I : forall X, ClerkCall X -> S -> Prop) (F : S -> Prop)
         (p : Prog S unit) (st : S) : Prop :=
  match p with
  | Ret _ => F st
  | Throw _ => F st
  | SetState u k => holds_while I F k (u st)
  | Await c k => I _ c st /\ forall x, holds_while I F (k x) st
  end.
End Machine.

Module SignUpEmailPage.
Import SignUpEmail.
(** The in-flight flag that goes with a collaborator call: [isCreating]
    for the calls of [signup], [isVerifying] for those of [verify]; the
    session is activated from either. *)
Definition in_flight_flag (k : CallKind) (st : Store) : bool :=
  match k with
  | create_signup => isCreating st
  | prepare_verification => isCreating st
  | attempt_verification => isVerifying st
  | activate_session => isCreating st || isVerifying st
  end.

(** The three phases of the store. *)
Definition Idle (st : Store) : Prop :=
  isCreating st = false /\ isVerifying st = false.
Definition Creating (st : Store) : Prop :=
  isCreating st = true /\ isVerifying st = false /\ state st = READY.
Definition Verifying (st : Store) : Prop :=
  isVerifying st = true /\ isCreating st = false /\ state st = VERIFY_EMAIL.

(** The phase the store is in while a call of a given kind is awaited. *)
Definition Busy (X : Type) (c : ClerkCall X) (st : Store) : Prop :=
  match kind_of c with
  | create_signup => Creating st
  | prepare_verification => Creating st
  | attempt_verification => Verifying st
  | activate_session => Creating st \/ Verifying st
  end.

(** At most one handler waits, the store is in the phase of its call, and
    the handler leaves the store idle when it finishes. *)
Definition Inv (cfg : Config Store) : Prop :=
  match in_flight cfg with
  | [] => Idle (store cfg)
  | [s] =>
      Busy (awaited s) (store cfg) /\
      forall x, holds_while Busy Idle (resume s x) (store cfg)
  | _ => False
  end.

Section Page.
Variable emailRegex : jsstring -> bool.

Definition submitSignup (e : Env) (values : FormSchemaWithEmail)
  : option (Prog Store unit) :=
  handleSubmit (Some (formSchemaWithEmail emailRegex))
               (onSignup (hook e)) values.

Definition submitVerification (e : Env) (values : VerificationSchema)
  : option (Prog Store unit) :=
  handleSubmit (Some verificationSchema) (onVerification (hook e)) values.

Definition step : Config Store -> Config Store -> Prop :=
  step render submitSignup submitVerification (Some onTryAgain).

Definition reachable : Config Store -> Prop :=
  reachable render submitSignup submitVerification (Some onTryAgain)
            initial.
End Page.
End SignUpEmailPage.

Module SignUpPage.
Import SignUp.

(** [useSignupForm] passes no resolver to [useForm]. *)
Definition submitSignup (h : UseSignUp) (values : FormSchema)
  : option (Prog Store unit) :=
  handleSubmit None (onSignup h) values.

Definition submitVerification (h : UseSignUp) (values : VerificationSchema)
  : option (Prog Store unit) :=
  handleSubmit (Some verificationSchema) (onVerification h) values.

Definition step : Config Store -> Config Store -> Prop :=
  step (fun _ => render) submitSignup submitVerification None.

Definition reachable : Config Store -> Prop :=
  reachable (fun _ => render) submitSignup submitVerification None initial.
End SignUpPage.

(** ** Sample inputs *)

Module Samples.
(** An entropy source that only ever yields 0. *)
Definition rand_zero : nat -> N := fun _ => 0%N.

(** An entropy source that cycles through the indices of [a], [A], [0]
    and the tilde, offset by multiples of the alphabet size. *)
Definition rand_tilde : nat -> N :=
  fun i => nth i [36; 10 + 68; 0; 62; 36; 10; 68; 62 + 680; 36; 10; 0; 62]%N 0%N.

(** A collaborator that settles each kind of call in a fixed way. *)
Definition clerk (create prepare attempt : Settled SignUpResource)
           (activate : Settled unit) : Clerk :=
  fun X c =>
    match c in ClerkCall X return Settled X with
    | signUp_create _ _ _ => create
    | signUp_prepareEmailAddressVerification _ => prepare
    | signUp_attemptEmailAddressVerification _ => attempt
    | setActive _ => activate
    end.

Definition resource (st : string) (session : JsVal) : SignUpResource :=
  {| status := str (lit st); createdSessionId := session |}.

Definition needs_verification : Settled SignUpResource :=
  fulfilled (resource "missing_requirements" null).
Definition completed : Settled SignUpResource :=
  fulfilled (resource "complete" (str (lit "sess_1"))).
Definition abandoned : Settled SignUpResource :=
  fulfilled (resource "abandoned" null).

(** A rejection as the collaborator documents it: structured entries
    with a long message, and the exception's own message. *)
Definition api_error : Thrown :=
  thrown_object
    {| errors := Some [ {| longMessage := str (lit "That username is taken.") |} ];
       message := str (lit "Unprocessable") |}.

(** A plain exception, and one without any text. *)
Definition plain_error : Thrown :=
  thrown_object {| errors := None; message := str (lit "Network down") |}.
Definition empty_error : Thrown :=
  thrown_object {| errors := Some []; message := str [] |}.

Definition loaded : UseSignUp := {| isLoaded := true; signUp := true |}.
Definition not_loaded : UseSignUp := {| isLoaded := false; signUp := false |}.

(** A stand-in for the e-mail pattern: the address contains an at sign. *)
Definition emailRegex : jsstring -> bool := existsb (code_unit_eqb 64%N).

Definition input : SignUpEmail.FormSchemaWithEmail :=
  {| SignUpEmail.email := lit "test@example.com";
     SignUpEmail.username := lit "testingUser";
     SignUpEmail.password := lit "Passw0rd!";
     SignUpEmail.confirmPassword := lit "Passw0rd!";
     SignUpEmail.tos := true |}.

Definition input' : SignUp.FormSchema :=
  {| SignUp.username := lit "testingUser";
     SignUp.password := lit "Passw0rd!";
     SignUp.confirmPassword := lit "Passw0rd!";
     SignUp.tos := true |}.

Definition verification : VerificationSchema := {| code := lit "123456" |}.

Definition env : SignUpEmail.Env :=
  {| SignUpEmail.hook := loaded; SignUpEmail.formState_isValid := true |}.

(** The page of [src/routes/sign-up.tsx] after two submissions in a row,
    none of the calls settled. *)
Definition submitted_twice : Config SignUp.Store :=
  start (SignUp.onSignup loaded input')
        (start (SignUp.onSignup loaded input')
               {| store := SignUp.initial; in_flight := [] |}).

(** The page of the e-mail route after one submission, the create-signup
    call not settled yet. *)
Definition submitted_once : Config SignUpEmail.Store :=
  start (SignUpEmail.onSignup loaded input)
        {| store := SignUpEmail.initial; in_flight := [] |}.
End Samples.

(** ** Derived notions used by the further properties *)

(** The requirement [passwordSchema] reports for a password: the first one
    that fails, in the order of the pipe. *)
Definition first_failed_requirement (s : jsstring) : option string :=
  if List.length s <? 8 then
    Some "String must contain at least 8 character(s)"%string
  else if 12 <? List.length s then
    Some "String must contain at most 12 character(s)"%string
  else if negb (Zod.test lowercase_re s) then
    Some "Must contain lowercase letter"%string
  else if negb (Zod.test uppercase_re s) then
    Some "Must contain uppercase letter"%string
  else if negb (Zod.test digit_re s) then
    Some "Must contain number"%string
  else if negb (Zod.test special_re s) then
    Some "Must contain special character"%string
  else None.

(** The special characters of the generator's alphabet that the password
    policy accepts: all of them but the tilde. *)
Definition generated_special_character (c : code_unit) : Prop :=
  In c (lit "!@-#$").

(** A result is well formed when it did not abort and is valid exactly
    when it carries no issue. *)
Definition well_formed (r : Zod.ParseReturn) : Prop :=
  Zod.status r <> Zod.aborted /\
  (Zod.status r = Zod.valid <-> Zod.issues r = []).

Definition issue_at (p : list string) (msg : string) (holds : bool)
  : list Zod.ZodIssue :=
  if holds then [] else [ {| Zod.path := p; Zod.message := msg |} ].

Definition has_issue_at (p : list string) (iss : list Zod.ZodIssue) : bool :=
  existsb (fun i => Zod.path_eqb (Zod.path i) p) iss.

Definition issued_kind (i : Issued) : CallKind :=
  match i with
  | issued c => kind_of c
  end.

(** The guard of [signup] and [verify] of the e-mail route lets a call
    through when the collaborator is loaded and the sign-up object is
    defined. *)
Definition guard_open (h : UseSignUp) : bool := isLoaded h && signUp h.

(** The store cells an operation of the e-mail route leaves alone. *)
Definition same_page (a b : SignUpEmail.Store) : Prop :=
  SignUpEmail.state a = SignUpEmail.state b /\
  SignUpEmail.error a = SignUpEmail.error b /\
  SignUpEmail.showPassword a = SignUpEmail.showPassword b.

(** A property of the store that holds now and that every waiting handler
    re-establishes at each of its suspensions and when it finishes. *)
Definition keeps {S} (P : S -> Prop) (cfg : Config S) : Prop :=
  P (store cfg) /\
  Forall (fun s => forall x,
              holds_while (fun _ _ => P) P (resume s x) (store cfg))
         (in_flight cfg).

(** Every state setter a handler may call keeps [P], wherever the handler
    is resumed. *)
Fixpoint preserves {S} (P : S -> Prop) (p : Prog S unit) : Prop :=
  match p with
  | Ret _ => True
  | Throw _ => True
  | SetState u k => (forall st, P st -> P (u st)) /\ preserves P k
  | Await c k => forall x, preserves P (k x)
  end.

(** The error text of the e-mail route is in step with the page: a
    non-empty text on the error page, [null] on every other. *)
Definition ErrorInStep (st : SignUpEmail.Store) : Prop :=
  match SignUpEmail.state st with
  | ERROR => truthy (SignUpEmail.error st) = true
  | _ => SignUpEmail.error st = null
  end.

Definition no_in_flight {S} (cfg : Config S) : bool :=
  match in_flight cfg with
  | [] => true
  | _ => false
  end.

(** What the e-mail route shows is consistent: the error text is in step
    with the page and the page is not the unused LOADING one. *)
Definition Shown (st : SignUpEmail.Store) : Prop :=
  ErrorInStep st /\ SignUpEmail.state st <> LOADING.

(** The call that has waited longest settles the way the collaborator
    [clerk] answers it. *)
Definition settle_next {S} (clerk : Clerk) (cfg : Config S) : Config S :=
  match in_flight cfg with
  | [] => cfg
  | s :: after =>
      {| store := fst (advance (resume s (clerk _ (awaited s))) (store cfg));
         in_flight :=
           suspended (snd (advance (resume s (clerk _ (awaited s))) (store cfg)))
           ++ after |}
  end.

Module MoreSamples.
(** The e-mail route after a submission whose create-signup call was
    rejected: the error page. *)
Definition failed_once : Config SignUpEmail.Store :=
  settle_next (Samples.clerk (rejected Samples.api_error) Samples.completed
                             Samples.completed (fulfilled tt))
              Samples.submitted_once.

(** The e-mail route after a submission that completed at once and whose
    session was activated: the welcome page. *)
Definition signed_up : Config SignUpEmail.Store :=
  settle_next (Samples.clerk Samples.completed Samples.completed
                             Samples.completed (fulfilled tt))
    (settle_next (Samples.clerk Samples.completed Samples.completed
                                Samples.completed (fulfilled tt))
                 Samples.submitted_once).
End MoreSamples.

(** The states [src/routes/sign-up.tsx] declares but never sets are out of
    the picture: the page is not LOADING and the hook is not at
    [success]. *)
Definition Declared_only (st : SignUp.Store) : Prop :=
  SignUp.state st <> LOADING /\ SignUp.hook_state st <> SignUp.hook_success.

Module MoreSamples'.
(** The page of [src/routes/sign-up.tsx] after a submission whose
    create-signup call was rejected. *)
Definition failed_once : Config SignUp.Store :=
  settle_next (Samples.clerk (rejected Samples.api_error) Samples.completed
                             Samples.completed (fulfilled tt))
    (start (SignUp.onSignup Samples.loaded Samples.input')
           {| store := SignUp.initial; in_flight := [] |}).
End MoreSamples'.

(** * Properties *)

(** ** Strings and values *)

Lemma jsstring_eqb_eq (a b : jsstring) : jsstring_eqb a b = true <-> a = b.
Proof.
  revert b; induction a as [|x a IH]; intros [|y b]; simpl;
    try (split; [discriminate | discriminate]); try tauto.
  unfold code_unit_eqb. rewrite andb_true_iff, N.eqb_eq, IH.
  split; [intros [-> ->]; reflexivity | intros H; inversion H; auto].
Qed.

Lemma jsstring_eqb_refl (a : jsstring) : jsstring_eqb a a = true.
Proof. apply jsstring_eqb_eq; reflexivity. Qed.

Lemma truthy_js_or_r (a b : JsVal) : truthy b = true -> truthy (js_or a b) = true.
Proof. unfold js_or; destruct (truthy a) eqn:E; auto. Qed.

(** ** zod *)

Module ZodFacts.
Import Zod.

Lemma zstring_fold checks p s :
  zstring checks p s = fold_left (add_issue p s) checks OK.
Proof. reflexivity. Qed.

Lemma fold_checks_valid checks p s acc :
  status (fold_left (add_issue p s) checks acc) = valid <->
  status acc = valid /\ Forall (fun c => run_check c s = None) checks.
Proof.
  revert acc; induction checks as [|c cs IH]; intros acc; simpl.
  - split; [intros H; split; [exact H | constructor] | tauto].
  - rewrite IH. unfold add_issue.
    destruct (run_check c s) as [m|] eqn:E; simpl.
    + split.
      * intros [H _]; destruct (status acc); discriminate.
      * intros [_ H]; inversion H; congruence.
    + split.
      * intros [H1 H2]; split; [exact H1 | constructor; assumption].
      * intros [H1 H2]; inversion H2; tauto.
Qed.

Lemma zstring_valid checks p s :
  status (zstring checks p s) = valid <->
  Forall (fun c => run_check c s = None) checks.
Proof.
  rewrite zstring_fold, fold_checks_valid. simpl; tauto.
Qed.

Lemma fold_checks_clean checks p s acc :
  status acc <> aborted ->
  Forall (fun i => path i = p) (issues acc) ->
  status (fold_left (add_issue p s) checks acc) <> aborted /\
  Forall (fun i => path i = p) (issues (fold_left (add_issue p s) checks acc)).
Proof.
  revert acc; induction checks as [|c cs IH]; intros acc Hs Hi; simpl.
  - split; assumption.
  - apply IH; unfold add_issue; destruct (run_check c s); simpl; auto.
    + destruct (status acc); simpl; congruence.
    + apply Forall_app; split; [assumption | repeat constructor].
Qed.

Lemma zstring_clean checks p s : clean_at p (zstring checks p s).
Proof.
  rewrite zstring_fold. apply fold_checks_clean; simpl.
  - discriminate.
  - constructor.
Qed.

Lemma pipe_valid A (a b : Schema A) p x :
  status (pipe a b p x) = valid <->
  status (a p x) = valid /\ status (b p x) = valid.
Proof.
  unfold pipe. destruct (status (a p x)) eqn:E; simpl; rewrite ?E.
  - tauto.
  - split; [discriminate | intros [H _]; discriminate].
  - split; [discriminate | intros [H _]; discriminate].
Qed.

Lemma pipe_clean A (a b : Schema A) p x :
  clean_at p (a p x) -> clean_at p (b p x) -> clean_at p (pipe a b p x).
Proof.
  unfold pipe, clean_at. intros [Ha1 Ha2] [Hb1 Hb2].
  destruct (status (a p x)) eqn:E; simpl; rewrite ?E.
  - split; [assumption | apply Forall_app; split; assumption].
  - split; [discriminate | assumption].
  - congruence.
Qed.

Lemma success_valid A (sc : Schema A) x :
  success (safeParse sc x) = true <-> status (sc [] x) = valid.
Proof.
  unfold safeParse. destruct (status (sc [] x)); simpl;
    split; congruence.
Qed.

Lemma test_exists re s :
  test re s = true <-> exists c, In c s /\ members re c = true.
Proof. unfold test. apply existsb_exists. Qed.

Lemma path_eqb_eq a b : path_eqb a b = true <-> a = b.
Proof.
  unfold path_eqb. destruct (list_eq_dec string_dec a b); split; congruence.
Qed.

Lemma no_error_at_other (q : list string) iss :
  Forall (fun i => path i <> q) iss ->
  existsb (fun i => path_eqb (path i) q) iss = false.
Proof.
  induction 1 as [|i l Hi _ IH]; simpl; [reflexivity|].
  rewrite IH, orb_false_r.
  destruct (path_eqb (path i) q) eqn:E; [|reflexivity].
  apply path_eqb_eq in E; contradiction.
Qed.
End ZodFacts.

(** ** Password policy *)

Lemma in_range_spec lo hi c :
  in_range lo hi c = true <-> (N_of_ascii lo <= c <= N_of_ascii hi)%N.
Proof.
  unfold in_range. rewrite andb_true_iff, !N.leb_le. tauto.
Qed.

Lemma one_of_spec set c : one_of set c = true <-> In c set.
Proof.
  unfold one_of. rewrite existsb_exists. split.
  - intros [x [Hin Heq]]. apply N.eqb_eq in Heq. subst; assumption.
  - intros Hin. exists c. split; [assumption | apply N.eqb_refl].
Qed.

Lemma test_class (re : Zod.RegExp) (P : code_unit -> Prop) s :
  (forall c, Zod.members re c = true <-> P c) ->
  Zod.test re s = true <-> contains P s.
Proof.
  intros H. rewrite ZodFacts.test_exists. unfold contains.
  split; intros [c [Hin Hc]]; exists c; split; auto; apply H; assumption.
Qed.

Lemma test_lowercase s : Zod.test lowercase_re s = true <-> contains lowercase_letter s.
Proof. apply test_class. intros c. apply (in_range_spec "a"%char "z"%char). Qed.

Lemma test_uppercase s : Zod.test uppercase_re s = true <-> contains uppercase_letter s.
Proof. apply test_class. intros c. apply (in_range_spec "A"%char "Z"%char). Qed.

Lemma test_digit s : Zod.test digit_re s = true <-> contains digit s.
Proof. apply test_class. intros c. apply (in_range_spec "0"%char "9"%char). Qed.

Lemma test_special s : Zod.test special_re s = true <-> contains special_character s.
Proof. apply test_class. intros c. apply one_of_spec. Qed.

Lemma Forall_one A (P : A -> Prop) x : Forall P [x] <-> P x.
Proof.
  split; [intros H; inversion H; assumption | intros H; repeat constructor; assumption].
Qed.

Lemma Forall_two A (P : A -> Prop) x y : Forall P [x; y] <-> P x /\ P y.
Proof.
  split.
  - intros H; inversion H as [|? ? Hx Hr]; inversion Hr; tauto.
  - intros [Hx Hy]; repeat constructor; assumption.
Qed.

Lemma regex_check_passes re msg s :
  Zod.run_check (Zod.regex re msg) s = None <-> Zod.test re s = true.
Proof. simpl. destruct (Zod.test re s); split; congruence. Qed.

Lemma charLength_valid p s :
  Zod.status (passwordRequirementSchemas.charLength p s) = Zod.valid <->
  8 <= List.length s <= 12.
Proof.
  unfold passwordRequirementSchemas.charLength.
  rewrite ZodFacts.zstring_valid, Forall_two. simpl.
  destruct (Nat.ltb_spec (List.length s) 8), (Nat.ltb_spec 12 (List.length s));
    split; intros; try lia; try (split; reflexivity);
    match goal with H : _ /\ _ |- _ => destruct H; discriminate end.
Qed.

Lemma passwordSchema_valid p s :
  Zod.status (passwordSchema p s) = Zod.valid <->
  8 <= List.length s <= 12 /\
  contains lowercase_letter s /\ contains uppercase_letter s /\
  contains digit s /\ contains special_character s.
Proof.
  unfold passwordSchema. rewrite !ZodFacts.pipe_valid, charLength_valid.
  unfold passwordRequirementSchemas.oneLowercase,
    passwordRequirementSchemas.oneUppercase,
    passwordRequirementSchemas.oneNumber,
    passwordRequirementSchemas.oneSpecial.
  rewrite !ZodFacts.zstring_valid, !Forall_one, !regex_check_passes.
  rewrite test_lowercase, test_uppercase, test_digit, test_special.
  assert (Forall (fun c => Zod.run_check c s = None) []) by constructor.
  tauto.
Qed.

Lemma passwordSchema_clean p s : Zod.clean_at p (passwordSchema p s).
Proof.
  unfold passwordSchema.
  repeat (apply ZodFacts.pipe_clean); apply ZodFacts.zstring_clean.
Qed.

(** C5. A password passes [passwordSchema] exactly when its length lies in
    8..12 and it contains a lowercase letter, an uppercase letter, a digit
    and a character of the special-character set; so every password that
    misses one of the classes, or the length bound, fails. *)
Theorem password_accepted_iff (s : jsstring) :
  password_accepted s = true <->
  8 <= List.length s <= 12 /\
  contains lowercase_letter s /\ contains uppercase_letter s /\
  contains digit s /\ contains special_character s.
Proof.
  unfold password_accepted.
  rewrite ZodFacts.success_valid. apply passwordSchema_valid.
Qed.

Example password_accepted_example :
  password_accepted (lit "Passw0rd!") = true /\
  password_accepted (lit "passw0rd!") = false /\
  password_accepted (lit "PASSW0RD!") = false /\
  password_accepted (lit "Password!") = false /\
  password_accepted (lit "Passw0rdX") = false /\
  password_accepted (lit "Pw0rd!") = false /\
  password_accepted (lit "Passw0rd!Passw0rd!") = false.
Proof. repeat split; reflexivity. Qed.

(** ** Verification code *)

(** C6. A verification code passes [verificationSchema] exactly when it
    has 6 code units, whatever they are: "123456" passes, "12345" and
    "1234567" fail. *)
Theorem code_accepted_iff :
  (forall s : jsstring, code_accepted s = true <-> List.length s = 6) /\
  code_accepted (lit "123456") = true /\
  code_accepted (lit "12345") = false /\
  code_accepted (lit "1234567") = false /\
  code_accepted (lit "ab -!Z") = true.
Proof.
  split; [|repeat split; reflexivity].
  intros s. unfold code_accepted, Zod.safeParse, verificationSchema,
    Zod.mergeObject, Zod.zstring, Zod.add_issue; simpl.
  destruct (Nat.ltb_spec 6 (List.length s)), (Nat.ltb_spec (List.length s) 6);
    simpl; split; try congruence; lia.
Qed.

(** ** Cross-field refinements *)

Lemma mergeObject_fold_ok (P : Zod.ZodIssue -> Prop) fields acc :
  Zod.status acc <> Zod.aborted -> Forall P (Zod.issues acc) ->
  Forall (fun r => Zod.status r <> Zod.aborted /\ Forall P (Zod.issues r)) fields ->
  let r := fold_left
             (fun acc r =>
                {| Zod.status := Zod.merge_status (Zod.status acc) (Zod.status r);
                   Zod.issues := Zod.issues acc ++ Zod.issues r |})
             fields acc in
  Zod.status r <> Zod.aborted /\ Forall P (Zod.issues r).
Proof.
  intros Hs Hi Hf. revert acc Hs Hi.
  induction Hf as [|f fs [Hf1 Hf2] _ IH]; intros acc Hs Hi; simpl.
  - split; assumption.
  - apply IH; simpl.
    + destruct (Zod.status acc), (Zod.status f); simpl; congruence.
    + apply Forall_app; split; assumption.
Qed.

Lemma mergeObject_ok (P : Zod.ZodIssue -> Prop) fields :
  Forall (fun r => Zod.status r <> Zod.aborted /\ Forall P (Zod.issues r)) fields ->
  Zod.status (Zod.mergeObject fields) <> Zod.aborted /\
  Forall P (Zod.issues (Zod.mergeObject fields)).
Proof.
  intros H. unfold Zod.mergeObject.
  apply mergeObject_fold_ok; simpl; [discriminate | constructor | exact H].
Qed.

Lemma clean_at_elsewhere p q r :
  p <> q -> Zod.clean_at p r ->
  Zod.status r <> Zod.aborted /\ Forall (fun i => Zod.path i <> q) (Zod.issues r).
Proof.
  intros Hpq [Hs Hi]. split; [assumption|].
  eapply Forall_impl; [|exact Hi]. simpl. intros i Hp. congruence.
Qed.

Lemma no_issue_elsewhere q :
  Zod.status Zod.OK <> Zod.aborted /\
  Forall (fun i => Zod.path i <> q) (Zod.issues Zod.OK).
Proof. split; [discriminate | constructor]. Qed.

(** Two stacked refinements over an inner schema that reports nothing at
    [sub]: an error sits at [sub] exactly when the first refinement
    fails. *)
Lemma refine_twice_error_at A (inner : Zod.Schema A) (c1 c2 : A -> bool)
      m1 m2 sub sub2 x :
  sub2 <> sub ->
  Zod.status (inner [] x) <> Zod.aborted ->
  Forall (fun i => Zod.path i <> sub) (Zod.issues (inner [] x)) ->
  Zod.error_at
    (Zod.safeParse (Zod.refine (Zod.refine inner c1 m1 sub) c2 m2 sub2) x) sub
  = negb (c1 x).
Proof.
  intros Hsub Hs Hi.
  assert (Hn := ZodFacts.no_error_at_other Hi).
  assert (Hsub2 : Zod.path_eqb sub2 sub = false).
  { destruct (Zod.path_eqb sub2 sub) eqn:E; [|reflexivity].
    apply ZodFacts.path_eqb_eq in E; contradiction. }
  assert (Hrefl : Zod.path_eqb sub sub = true) by (apply ZodFacts.path_eqb_eq; reflexivity).
  unfold Zod.safeParse, Zod.refine.
  destruct (Zod.status (inner [] x)) eqn:E; [| |congruence];
    destruct (c1 x); simpl; rewrite ?E; destruct (c2 x); simpl; rewrite ?E;
    simpl; rewrite ?existsb_app, ?Hn; simpl; rewrite ?Hsub2, ?Hrefl;
    reflexivity.
Qed.

Lemma formObjectWithEmail_ok emailRegex d :
  Zod.status (SignUpEmail.formObjectWithEmail emailRegex [] d) <> Zod.aborted /\
  Forall (fun i => Zod.path i <> ["confirmPassword"%string])
         (Zod.issues (SignUpEmail.formObjectWithEmail emailRegex [] d)).
Proof.
  unfold SignUpEmail.formObjectWithEmail. apply mergeObject_ok. simpl.
  repeat apply Forall_cons; try apply Forall_nil.
  - apply clean_at_elsewhere with (p := ["email"%string]);
      [discriminate | apply ZodFacts.zstring_clean].
  - apply clean_at_elsewhere with (p := ["username"%string]);
      [discriminate | apply ZodFacts.zstring_clean].
  - apply clean_at_elsewhere with (p := ["password"%string]);
      [discriminate | apply passwordSchema_clean].
  - apply no_issue_elsewhere.
  - apply no_issue_elsewhere.
Qed.

Lemma formObject_ok d :
  Zod.status (SignUp.formObject [] d) <> Zod.aborted /\
  Forall (fun i => Zod.path i <> ["confirmPassword"%string])
         (Zod.issues (SignUp.formObject [] d)).
Proof.
  unfold SignUp.formObject. apply mergeObject_ok. simpl.
  repeat apply Forall_cons; try apply Forall_nil.
  - apply clean_at_elsewhere with (p := ["username"%string]);
      [discriminate | apply ZodFacts.zstring_clean].
  - apply clean_at_elsewhere with (p := ["password"%string]);
      [discriminate | apply passwordSchema_clean].
  - apply no_issue_elsewhere.
  - apply no_issue_elsewhere.
Qed.

Lemma negb_eqb_differs (a b : jsstring) :
  negb (jsstring_eqb a b) = true <-> b <> a.
Proof.
  rewrite negb_true_iff. split.
  - intros H E. subst. rewrite jsstring_eqb_refl in H. discriminate.
  - intros H. destruct (jsstring_eqb a b) eqn:E; [|reflexivity].
    apply jsstring_eqb_eq in E. subst. contradiction.
Qed.

(** C4. In both form schemas, validation reports an error on
    [confirmPassword] exactly when [confirmPassword] differs from
    [password], whatever the other fields hold and whether or not
    [password] passes its own rules. *)
Theorem confirmPassword_error_iff :
  (forall emailRegex (d : SignUpEmail.FormSchemaWithEmail),
      Zod.error_at
        (Zod.safeParse (SignUpEmail.formSchemaWithEmail emailRegex) d)
        ["confirmPassword"%string] = true
      <-> SignUpEmail.confirmPassword d <> SignUpEmail.password d) /\
  (forall d : SignUp.FormSchema,
      Zod.error_at (Zod.safeParse SignUp.formSchema d)
                   ["confirmPassword"%string] = true
      <-> SignUp.confirmPassword d <> SignUp.password d).
Proof.
  split.
  - intros emailRegex d. unfold SignUpEmail.formSchemaWithEmail.
    destruct (formObjectWithEmail_ok emailRegex d) as [Hs Hi].
    rewrite refine_twice_error_at; [apply negb_eqb_differs | discriminate | assumption | assumption].
  - intros d. unfold SignUp.formSchema.
    destruct (formObject_ok d) as [Hs Hi].
    rewrite refine_twice_error_at; [apply negb_eqb_differs | discriminate | assumption | assumption].
Qed.

(** ** Generated passwords *)

Lemma char_at_in (s : jsstring) (i : N) :
  (i < N.of_nat (List.length s))%N ->
  exists c, char_at s i = str [c] /\ In c s.
Proof.
  intros Hi. unfold char_at.
  destruct (nth_error s (N.to_nat i)) as [c|] eqn:E.
  - exists c. split; [reflexivity | eapply nth_error_In; eassumption].
  - apply nth_error_None in E. lia.
Qed.

Lemma join_empty_units (s : jsstring) (f : N -> JsVal) (xs : list N) :
  (forall x, exists c, f x = str [c] /\ In c s) ->
  List.length (join_empty (map f xs)) = List.length xs /\
  Forall (fun c => In c s) (join_empty (map f xs)).
Proof.
  intros Hf. induction xs as [|x xs [IHl IHf]]; simpl.
  - split; [reflexivity | constructor].
  - destruct (Hf x) as [c [-> Hc]]. simpl.
    split; [congruence | constructor; assumption].
Qed.

Lemma generateRandomPassword_shape (rand : nat -> N) :
  List.length (generateRandomPassword rand) = 12 /\
  Forall (fun c => In c characters) (generateRandomPassword rand).
Proof.
  unfold generateRandomPassword.
  destruct (join_empty_units characters
              (fun x => char_at characters
                          (x mod N.of_nat (List.length characters))%N)
              (getRandomValues rand 12)) as [Hl Hf].
  - intros x. apply char_at_in. apply N.mod_lt. discriminate.
  - split; [|exact Hf]. rewrite Hl. unfold getRandomValues.
    rewrite length_map, length_seq. reflexivity.
Qed.

(** C10. [generateRandomPassword] always returns 12 characters of its
    68-character alphabet, yet some of its outputs fail [passwordSchema]:
    twelve digits, or a string whose only non-alphanumeric character is the
    tilde, which is not in the special-character set. The default
    [password] and [confirmPassword] of the signup form are such an output,
    so they need not pass validation. *)
Theorem generateRandomPassword_may_fail_validation :
  List.length characters = 68 /\
  (forall rand,
      List.length (generateRandomPassword rand) = 12 /\
      Forall (fun c => In c characters) (generateRandomPassword rand)) /\
  (generateRandomPassword Samples.rand_zero = lit "000000000000" /\
   password_accepted (generateRandomPassword Samples.rand_zero) = false) /\
  (generateRandomPassword Samples.rand_tilde = lit "aA0~aA0~aA0~" /\
   password_accepted (generateRandomPassword Samples.rand_tilde) = false /\
   In 126%N characters /\ ~ special_character 126%N) /\
  (forall rand,
      SignUpEmail.password (SignUpEmail.useSignupFormWithEmail_defaultValues rand)
      = generateRandomPassword rand /\
      SignUpEmail.confirmPassword (SignUpEmail.useSignupFormWithEmail_defaultValues rand)
      = generateRandomPassword rand) /\
  (exists rand,
      password_accepted
        (SignUpEmail.password (SignUpEmail.useSignupFormWithEmail_defaultValues rand))
      = false).
Proof.
  split; [reflexivity|].
  split; [exact generateRandomPassword_shape|].
  split; [split; reflexivity|].
  split.
  - split; [reflexivity|]. split; [reflexivity|].
    split; [vm_compute; intuition|].
    unfold special_character. vm_compute.
    intros H. repeat (destruct H as [H|H]; [discriminate H|]). exact H.
  - split; [intros rand; split; reflexivity|].
    exists Samples.rand_tilde. reflexivity.
Qed.

(** ** Running the handlers of the e-mail route *)

Arguments lit : simpl never.
Arguments strict_eq : simpl never.

Lemma strict_eq_iff (a b : JsVal) : strict_eq a b = true <-> a = b.
Proof.
  destruct a, b; unfold strict_eq; try (split; congruence).
  rewrite jsstring_eqb_eq. split; congruence.
Qed.

Lemma strict_eq_refl (a : JsVal) : strict_eq a a = true.
Proof. apply strict_eq_iff; reflexivity. Qed.

Lemma strict_eq_differs (a b : JsVal) : a <> b -> strict_eq a b = false.
Proof.
  intros H. destruct (strict_eq a b) eqn:E; [|reflexivity].
  apply strict_eq_iff in E. contradiction.
Qed.

Lemma error_text_truthy err fallback :
  lit fallback <> [] -> truthy (SignUpEmail.error_text err fallback) = true.
Proof.
  intros H. unfold SignUpEmail.error_text. apply truthy_js_or_r.
  simpl. destruct (lit fallback); congruence.
Qed.

Module SignUpEmailFacts.
Import SignUpEmail.

Section Loaded.
Variable h : UseSignUp.
Variable clerk : forall X, ClerkCall X -> Settled X.
Arguments clerk : clear implicits.
Hypothesis (Hloaded : isLoaded h = true) (HsignUp : signUp h = true).

Section Signup.
Variables (data : FormSchemaWithEmail) (st : Store).

Let create :=
  signUp_create (email data) (password data) (username data).
Let prepare := signUp_prepareEmailAddressVerification (lit "email_code").
Let busy := setIsCreating true (setError null st).

Lemma onSignup_create_rejected e :
  clerk _ create = rejected e ->
  run clerk (onSignup h data) st =
  {| final := setState ERROR
                (setError (error_text e "Signup failed")
                          (setIsCreating false busy));
     calls := [issued create];
     result := inl tt |}.
Proof.
  intros Hc. unfold run, onSignup, signup. rewrite Hloaded, HsignUp. cbn.
  fold create. rewrite Hc. reflexivity.
Qed.

Lemma onSignup_missing_requirements r :
  clerk _ create = fulfilled r ->
  status r = str (lit "missing_requirements") ->
  run clerk (onSignup h data) st =
  {| final :=
       match clerk _ prepare with
       | fulfilled _ => setState VERIFY_EMAIL (setIsCreating false busy)
       | rejected e =>
           setState ERROR
             (setError (error_text e "Signup failed")
                       (setIsCreating false busy))
       end;
     calls := [issued create; issued prepare];
     result := inl tt |}.
Proof.
  intros Hc Hst. unfold run, onSignup, signup. rewrite Hloaded, HsignUp. cbn.
  fold create. rewrite Hc. cbn. rewrite Hst, strict_eq_refl. cbn.
  fold prepare. destruct (clerk _ prepare); reflexivity.
Qed.

Lemma onSignup_complete r :
  clerk _ create = fulfilled r ->
  status r = str (lit "complete") ->
  run clerk (onSignup h data) st =
  {| final :=
       match clerk _ (setActive (createdSessionId r)) with
       | fulfilled _ => setState DONE (setIsCreating false busy)
       | rejected e =>
           setState ERROR
             (setError (error_text e "Signup failed")
                       (setIsCreating false busy))
       end;
     calls := [issued create; issued (setActive (createdSessionId r))];
     result := inl tt |}.
Proof.
  intros Hc Hst. unfold run, onSignup, signup. rewrite Hloaded, HsignUp. cbn.
  fold create. rewrite Hc. cbn. rewrite Hst.
  rewrite (strict_eq_differs (a := str (lit "complete"))) by discriminate.
  rewrite strict_eq_refl. cbn.
  destruct (clerk _ (setActive (createdSessionId r))); reflexivity.
Qed.

Lemma onSignup_unexpected r :
  clerk _ create = fulfilled r ->
  status r <> str (lit "missing_requirements") ->
  status r <> str (lit "complete") ->
  run clerk (onSignup h data) st =
  {| final := setState ERROR
                (setError (str (lit "Unexpected signup status"))
                          (setIsCreating false busy));
     calls := [issued create];
     result := inl tt |}.
Proof.
  intros Hc H1 H2. unfold run, onSignup, signup. rewrite Hloaded, HsignUp. cbn.
  fold create. rewrite Hc. cbn.
  rewrite (strict_eq_differs H1), (strict_eq_differs H2). reflexivity.
Qed.

Lemma signup_unexpected r :
  clerk _ create = fulfilled r ->
  status r <> str (lit "missing_requirements") ->
  status r <> str (lit "complete") ->
  run clerk (signup h data) st =
  {| final := setIsCreating false (setIsCreating true st);
     calls := [issued create];
     result := inl (Result.failure (str (lit "Unexpected signup status"))) |}.
Proof.
  intros Hc H1 H2. unfold run, signup. rewrite Hloaded, HsignUp. cbn.
  fold create. rewrite Hc. cbn.
  rewrite (strict_eq_differs H1), (strict_eq_differs H2). reflexivity.
Qed.
End Signup.

Section Verify.
Variables (data : VerificationSchema) (st : Store).

Let attempt := signUp_attemptEmailAddressVerification (code data).
Let busy := setIsVerifying true (setError null st).

Lemma onVerification_rejected e :
  clerk _ attempt = rejected e ->
  run clerk (onVerification h data) st =
  {| final := setState ERROR
                (setError (error_text e "Verification failed")
                          (setIsVerifying false busy));
     calls := [issued attempt];
     result := inl tt |}.
Proof.
  intros Hc. unfold run, onVerification, verify.
  rewrite Hloaded, HsignUp. cbn.
  fold attempt. rewrite Hc. reflexivity.
Qed.

Lemma onVerification_complete r :
  clerk _ attempt = fulfilled r ->
  status r = str (lit "complete") ->
  run clerk (onVerification h data) st =
  {| final :=
       match clerk _ (setActive (createdSessionId r)) with
       | fulfilled _ => setState DONE (setIsVerifying false busy)
       | rejected e =>
           setState ERROR
             (setError (error_text e "Verification failed")
                       (setIsVerifying false busy))
       end;
     calls := [issued attempt; issued (setActive (createdSessionId r))];
     result := inl tt |}.
Proof.
  intros Hc Hst. unfold run, onVerification, verify.
  rewrite Hloaded, HsignUp. cbn.
  fold attempt. rewrite Hc. cbn. rewrite Hst, strict_eq_refl. cbn.
  destruct (clerk _ (setActive (createdSessionId r))); reflexivity.
Qed.

Lemma onVerification_other_status r :
  clerk _ attempt = fulfilled r ->
  status r <> str (lit "complete") ->
  run clerk (onVerification h data) st =
  {| final := setState ERROR
                (setError (str (lit "Verification failed"))
                          (setIsVerifying false busy));
     calls := [issued attempt];
     result := inl tt |}.
Proof.
  intros Hc H1. unfold run, onVerification, verify.
  rewrite Hloaded, HsignUp. cbn.
  fold attempt. rewrite Hc. cbn.
  rewrite (strict_eq_differs H1). reflexivity.
Qed.
End Verify.
End Loaded.

Lemma not_loaded_guard h : isLoaded h = false -> negb (isLoaded h) || negb (signUp h) = true.
Proof. intros ->. reflexivity. Qed.

Lemma submitSignup_valid emailRegex e data :
  Zod.success (Zod.safeParse (formSchemaWithEmail emailRegex) data) = true ->
  SignUpEmailPage.submitSignup emailRegex e data = Some (onSignup (hook e) data).
Proof.
  intros H. unfold SignUpEmailPage.submitSignup, handleSubmit. rewrite H.
  reflexivity.
Qed.

Lemma submitVerification_valid e data :
  Zod.success (Zod.safeParse verificationSchema data) = true ->
  SignUpEmailPage.submitVerification e data = Some (onVerification (hook e) data).
Proof.
  intros H. unfold SignUpEmailPage.submitVerification, handleSubmit. rewrite H.
  reflexivity.
Qed.
End SignUpEmailFacts.

(** ** Signup submission *)

Section SignupSubmission.
Import SignUpEmail.

(** C1 (amended). In [SignupEmailUsernamePassword], submitting a valid
    signup input from READY with the collaborator loaded: when the
    create-signup call resolves with status [missing_requirements] the
    prepare-verification call is issued and the page goes to VERIFY_EMAIL
    if that call resolves, to ERROR if it rejects; when it resolves with
    status [complete] the activate-session call is issued and the page
    goes to DONE if that call resolves, to ERROR if it rejects. *)
Theorem signup_submission_transitions
        (emailRegex : jsstring -> bool) (e : Env)
        (data : FormSchemaWithEmail) (st : Store) (clerk : Clerk)
        (r : SignUpResource) :
  isLoaded (hook e) = true -> signUp (hook e) = true ->
  state st = READY ->
  Zod.success (Zod.safeParse (formSchemaWithEmail emailRegex) data) = true ->
  clerk _ (signUp_create (email data) (password data) (username data))
  = fulfilled r ->
  exists p,
    SignUpEmailPage.submitSignup emailRegex e data = Some p /\
    (status r = str (lit "missing_requirements") ->
     calls (run clerk p st)
     = [ issued (signUp_create (email data) (password data) (username data));
         issued (signUp_prepareEmailAddressVerification (lit "email_code")) ] /\
     state (final (run clerk p st))
     = match clerk _ (signUp_prepareEmailAddressVerification (lit "email_code")) with
       | fulfilled _ => VERIFY_EMAIL
       | rejected _ => ERROR
       end) /\
    (status r = str (lit "complete") ->
     calls (run clerk p st)
     = [ issued (signUp_create (email data) (password data) (username data));
         issued (setActive (createdSessionId r)) ] /\
     state (final (run clerk p st))
     = match clerk _ (setActive (createdSessionId r)) with
       | fulfilled _ => DONE
       | rejected _ => ERROR
       end).
Proof.
  intros Hl Hs _ Hvalid Hc.
  exists (onSignup (hook e) data).
  split; [apply SignUpEmailFacts.submitSignup_valid; exact Hvalid|].
  split; intros Hst.
  - rewrite (SignUpEmailFacts.onSignup_missing_requirements _ clerk Hl Hs _ st Hc Hst).
    cbn. split; [reflexivity|].
    destruct (clerk _ (signUp_prepareEmailAddressVerification (lit "email_code")));
      reflexivity.
  - rewrite (SignUpEmailFacts.onSignup_complete _ clerk Hl Hs _ st Hc Hst).
    cbn. split; [reflexivity|].
    destruct (clerk _ (setActive (createdSessionId r))); reflexivity.
Qed.

Lemma signup_submission_transitions_witness :
  (exists p,
      SignUpEmailPage.submitSignup Samples.emailRegex Samples.env Samples.input
      = Some p /\
      state (final (run (Samples.clerk Samples.needs_verification
                                       Samples.needs_verification
                                       Samples.completed (fulfilled tt))
                        p initial)) = VERIFY_EMAIL) /\
  (exists p,
      SignUpEmailPage.submitSignup Samples.emailRegex Samples.env Samples.input
      = Some p /\
      state (final (run (Samples.clerk Samples.completed
                                       Samples.needs_verification
                                       Samples.completed (fulfilled tt))
                        p initial)) = DONE).
Proof.
  split.
  - destruct (signup_submission_transitions
                Samples.emailRegex Samples.env Samples.input initial
                (Samples.clerk Samples.needs_verification
                               Samples.needs_verification
                               Samples.completed (fulfilled tt))
                (r := Samples.resource "missing_requirements" null)
                eq_refl eq_refl eq_refl eq_refl eq_refl)
      as [p [Hp [H _]]].
    exists p. split; [exact Hp | exact (proj2 (H eq_refl))].
  - destruct (signup_submission_transitions
                Samples.emailRegex Samples.env Samples.input initial
                (Samples.clerk Samples.completed
                               Samples.needs_verification
                               Samples.completed (fulfilled tt))
                (r := Samples.resource "complete" (str (lit "sess_1")))
                eq_refl eq_refl eq_refl eq_refl eq_refl)
      as [p [Hp [_ H]]].
    exists p. split; [exact Hp | exact (proj2 (H eq_refl))].
Defined.

(** C1 fails as stated: the create-signup call reports
    [missing_requirements], the prepare-verification call is issued and
    rejects, and the page ends in ERROR, not VERIFY_EMAIL. In
    [src/routes/sign-up.tsx] the status of the create-signup call is not
    read at all: with [complete] the prepare-verification call is still
    issued, no session is activated, and the page never reaches DONE. *)
Lemma signup_submission_counterexample :
  let clerk := Samples.clerk Samples.needs_verification
                             (rejected Samples.api_error)
                             Samples.completed (fulfilled tt) in
  let o := run clerk (onSignup Samples.loaded Samples.input) initial in
  Zod.success (Zod.safeParse (formSchemaWithEmail Samples.emailRegex)
                             Samples.input) = true /\
  state initial = READY /\
  clerk _ (signUp_create (email Samples.input) (password Samples.input)
                         (username Samples.input))
  = Samples.needs_verification /\
  calls o = [ issued (signUp_create (email Samples.input)
                                    (password Samples.input)
                                    (username Samples.input));
              issued (signUp_prepareEmailAddressVerification (lit "email_code")) ] /\
  state (final o) = ERROR /\
  state (final o) <> VERIFY_EMAIL /\
  let clerk' := Samples.clerk Samples.completed Samples.needs_verification
                              Samples.completed (fulfilled tt) in
  let o' := run clerk' (SignUp.onSignup Samples.loaded Samples.input')
                SignUp.initial in
  SignUpPage.submitSignup Samples.loaded Samples.input'
  = Some (SignUp.onSignup Samples.loaded Samples.input') /\
  calls o' = [ issued (signUp_create SignUp.email
                                     (SignUp.password Samples.input')
                                     (SignUp.username Samples.input'));
               issued (signUp_prepareEmailAddressVerification (lit "email_code")) ] /\
  SignUp.state (final o') = ERROR /\
  SignUp.state (final o') <> DONE.
Proof.
  cbv zeta. repeat split; try reflexivity; vm_compute; discriminate.
Qed.
End SignupSubmission.

(** ** Collaborator not loaded *)

Section NotLoaded.
Import SignUpEmail.

(** C3 (amended). While the collaborator is not loaded, [signup] and
    [verify] of [useClerkSignupWithEmail] call nothing, change nothing
    and return the failure result with the text "Clerk not loaded";
    [signup] and [verify] of [useClerkSignup] call nothing, change
    nothing and do not throw either, but what they return is
    [undefined]. *)
Theorem not_loaded_no_call (h : UseSignUp) (clerk : Clerk) :
  isLoaded h = false ->
  (forall data st,
      run clerk (signup h data) st
      = {| final := st; calls := [];
           result := inl {| Result.success := false;
                            Result.requiresVerification := None;
                            Result.error := str (lit "Clerk not loaded") |} |}) /\
  (forall code st,
      run clerk (verify h code) st
      = {| final := st; calls := [];
           result := inl {| Result.success := false;
                            Result.requiresVerification := None;
                            Result.error := str (lit "Clerk not loaded") |} |}) /\
  truthy (str (lit "Clerk not loaded")) = true /\
  (forall data email st,
      run clerk (SignUp.signup h data email) st
      = {| final := st; calls := []; result := inl undefined |}) /\
  (forall code st,
      run clerk (SignUp.verify h code) st
      = {| final := st; calls := []; result := inl undefined |}).
Proof.
  intros Hl.
  repeat split; intros; unfold run, signup, verify, SignUp.signup, SignUp.verify;
    rewrite ?(SignUpEmailFacts.not_loaded_guard _ Hl), ?Hl; reflexivity.
Qed.

Lemma not_loaded_no_call_witness :
  isLoaded Samples.not_loaded = false /\
  result (run (Samples.clerk Samples.completed Samples.completed
                             Samples.completed (fulfilled tt))
              (signup Samples.not_loaded Samples.input) initial)
  = inl (Result.failure (str (lit "Clerk not loaded"))).
Proof.
  split; [reflexivity|].
  rewrite (proj1 (@not_loaded_no_call
                    Samples.not_loaded
                    (Samples.clerk Samples.completed Samples.completed
                                   Samples.completed (fulfilled tt))
                    eq_refl)).
  reflexivity.
Defined.

(** C3 fails as stated: while the collaborator is not loaded, [signup]
    and [verify] of [useClerkSignup] return nothing, not a failure
    result. *)
Lemma not_loaded_counterexample :
  let clerk := Samples.clerk Samples.completed Samples.completed
                             Samples.completed (fulfilled tt) in
  isLoaded Samples.not_loaded = false /\
  result (run clerk (SignUp.signup Samples.not_loaded Samples.input' SignUp.email)
              SignUp.initial) = inl undefined /\
  result (run clerk (SignUp.verify Samples.not_loaded (code Samples.verification))
              SignUp.initial) = inl undefined.
Proof. cbv zeta. repeat split. Qed.
End NotLoaded.

(** ** Unexpected status *)

Section UnexpectedStatus.
Import SignUpEmail.

(** C8. When the create-signup call resolves with a status that is
    neither [complete] nor [missing_requirements], [signup] issues no
    further call and returns the failure result with the text
    "Unexpected signup status", and the page goes to ERROR showing that
    text. *)
Theorem unexpected_status_is_error
        (h : UseSignUp) (data : FormSchemaWithEmail) (st : Store)
        (clerk : Clerk) (r : SignUpResource) :
  isLoaded h = true -> signUp h = true ->
  clerk _ (signUp_create (email data) (password data) (username data))
  = fulfilled r ->
  status r <> str (lit "complete") ->
  status r <> str (lit "missing_requirements") ->
  result (run clerk (signup h data) st)
  = inl {| Result.success := false;
           Result.requiresVerification := None;
           Result.error := str (lit "Unexpected signup status") |} /\
  calls (run clerk (signup h data) st)
  = [ issued (signUp_create (email data) (password data) (username data)) ] /\
  state (final (run clerk (onSignup h data) st)) = ERROR /\
  error (final (run clerk (onSignup h data) st))
  = str (lit "Unexpected signup status") /\
  truthy (str (lit "Unexpected signup status")) = true.
Proof.
  intros Hl Hs Hc H1 H2.
  rewrite (SignUpEmailFacts.signup_unexpected _ clerk Hl Hs _ st Hc H2 H1).
  rewrite (SignUpEmailFacts.onSignup_unexpected _ clerk Hl Hs _ st Hc H2 H1).
  repeat split.
Qed.

Lemma unexpected_status_is_error_witness :
  let clerk := Samples.clerk Samples.abandoned Samples.completed
                             Samples.completed (fulfilled tt) in
  state (final (run clerk (onSignup Samples.loaded Samples.input) initial))
  = ERROR.
Proof.
  cbv zeta.
  refine (proj1 (proj2 (proj2
            (unexpected_status_is_error
               Samples.loaded Samples.input initial
               (Samples.clerk Samples.abandoned Samples.completed
                              Samples.completed (fulfilled tt))
               (r := Samples.resource "abandoned" null)
               eq_refl eq_refl eq_refl _ _))));
    vm_compute; discriminate.
Defined.
End UnexpectedStatus.

(** ** Rejections *)

Section Rejections.
Import SignUpEmail.

Lemma error_text_first_available err fallback :
  error_text err fallback
  = first_available [first_longMessage err; err_message err] fallback.
Proof.
  unfold error_text, first_available, js_or. simpl.
  destruct (truthy (first_longMessage err)) eqn:E1; rewrite ?E1;
    [reflexivity|].
  destruct (truthy (err_message err)) eqn:E2; rewrite ?E2; reflexivity.
Qed.

(** C9 (amended). In [useClerkSignupWithEmail], whichever collaborator
    call rejects, the page goes to ERROR and its error text is the first
    non-empty one of: the long message of the first structured error, the
    exception's own message, the fixed text "Signup failed"
    (respectively "Verification failed"). *)
Theorem rejection_error_text (h : UseSignUp) (clerk : Clerk) :
  isLoaded h = true -> signUp h = true ->
  (forall data st e,
      clerk _ (signUp_create (email data) (password data) (username data))
      = rejected e ->
      state (final (run clerk (onSignup h data) st)) = ERROR /\
      error (final (run clerk (onSignup h data) st))
      = first_available [first_longMessage e; err_message e] "Signup failed") /\
  (forall data st r e,
      clerk _ (signUp_create (email data) (password data) (username data))
      = fulfilled r ->
      status r = str (lit "missing_requirements") ->
      clerk _ (signUp_prepareEmailAddressVerification (lit "email_code"))
      = rejected e ->
      state (final (run clerk (onSignup h data) st)) = ERROR /\
      error (final (run clerk (onSignup h data) st))
      = first_available [first_longMessage e; err_message e] "Signup failed") /\
  (forall data st r e,
      clerk _ (signUp_create (email data) (password data) (username data))
      = fulfilled r ->
      status r = str (lit "complete") ->
      clerk _ (setActive (createdSessionId r)) = rejected e ->
      state (final (run clerk (onSignup h data) st)) = ERROR /\
      error (final (run clerk (onSignup h data) st))
      = first_available [first_longMessage e; err_message e] "Signup failed") /\
  (forall data st e,
      clerk _ (signUp_attemptEmailAddressVerification (code data))
      = rejected e ->
      state (final (run clerk (onVerification h data) st)) = ERROR /\
      error (final (run clerk (onVerification h data) st))
      = first_available [first_longMessage e; err_message e]
                        "Verification failed") /\
  (forall data st r e,
      clerk _ (signUp_attemptEmailAddressVerification (code data))
      = fulfilled r ->
      status r = str (lit "complete") ->
      clerk _ (setActive (createdSessionId r)) = rejected e ->
      state (final (run clerk (onVerification h data) st)) = ERROR /\
      error (final (run clerk (onVerification h data) st))
      = first_available [first_longMessage e; err_message e]
                        "Verification failed").
Proof.
  intros Hl Hs. repeat apply conj.
  - intros data st e Hc.
    rewrite (SignUpEmailFacts.onSignup_create_rejected _ clerk Hl Hs _ st Hc).
    split; [reflexivity | apply error_text_first_available].
  - intros data st r e Hc Hst Hp.
    rewrite (SignUpEmailFacts.onSignup_missing_requirements _ clerk Hl Hs _ st Hc Hst).
    cbn. rewrite Hp.
    split; [reflexivity | apply error_text_first_available].
  - intros data st r e Hc Hst Hp.
    rewrite (SignUpEmailFacts.onSignup_complete _ clerk Hl Hs _ st Hc Hst).
    cbn. rewrite Hp.
    split; [reflexivity | apply error_text_first_available].
  - intros data st e Hc.
    rewrite (SignUpEmailFacts.onVerification_rejected _ clerk Hl Hs _ st Hc).
    split; [reflexivity | apply error_text_first_available].
  - intros data st r e Hc Hst Hp.
    rewrite (SignUpEmailFacts.onVerification_complete _ clerk Hl Hs _ st Hc Hst).
    cbn. rewrite Hp.
    split; [reflexivity | apply error_text_first_available].
Qed.

Lemma rejection_error_text_witness :
  error (final (run (Samples.clerk (rejected Samples.api_error)
                                   Samples.completed Samples.completed
                                   (fulfilled tt))
                    (onSignup Samples.loaded Samples.input) initial))
  = str (lit "That username is taken.") /\
  error (final (run (Samples.clerk (rejected Samples.plain_error)
                                   Samples.completed Samples.completed
                                   (fulfilled tt))
                    (onSignup Samples.loaded Samples.input) initial))
  = str (lit "Network down") /\
  error (final (run (Samples.clerk Samples.completed Samples.completed
                                   (rejected Samples.empty_error)
                                   (fulfilled tt))
                    (onVerification Samples.loaded Samples.verification)
                    initial))
  = str (lit "Verification failed").
Proof.
  repeat apply conj.
  - exact (proj2 (proj1 (@rejection_error_text
                           Samples.loaded
                           (Samples.clerk (rejected Samples.api_error)
                                          Samples.completed Samples.completed
                                          (fulfilled tt))
                           eq_refl eq_refl)
                        Samples.input initial Samples.api_error eq_refl)).
  - exact (proj2 (proj1 (@rejection_error_text
                           Samples.loaded
                           (Samples.clerk (rejected Samples.plain_error)
                                          Samples.completed Samples.completed
                                          (fulfilled tt))
                           eq_refl eq_refl)
                        Samples.input initial Samples.plain_error eq_refl)).
  - exact (proj2 (proj1 (proj2 (proj2 (proj2
                           (@rejection_error_text
                              Samples.loaded
                              (Samples.clerk Samples.completed Samples.completed
                                             (rejected Samples.empty_error)
                                             (fulfilled tt))
                              eq_refl eq_refl))))
                        Samples.verification initial Samples.empty_error
                        eq_refl)).
Defined.

(** C9 fails as stated: in [useClerkSignup] a rejected collaborator call
    leaves no message behind. The hook goes to its [error] state and
    returns nothing, and the page goes to ERROR with [err] undefined,
    although the rejection carried a long message. *)
Lemma rejection_error_text_counterexample :
  let clerk := Samples.clerk (rejected Samples.api_error) Samples.completed
                             (rejected Samples.api_error) (fulfilled tt) in
  let o := run clerk (SignUp.onSignup Samples.loaded Samples.input')
               SignUp.initial in
  let o' := run clerk (SignUp.onVerification Samples.loaded Samples.verification)
                (SignUp.setState VERIFY_EMAIL SignUp.initial) in
  first_available [first_longMessage Samples.api_error;
                   err_message Samples.api_error] "Signup failed"
  = str (lit "That username is taken.") /\
  result (run clerk (SignUp.signup Samples.loaded Samples.input' SignUp.email)
              SignUp.initial) = inl undefined /\
  SignUp.hook_state (final o) = SignUp.hook_error /\
  SignUp.state (final o) = ERROR /\
  SignUp.err (final o) = undefined /\
  SignUp.state (final o') = ERROR /\
  SignUp.err (final o') = undefined.
Proof. cbv zeta. repeat split. Qed.
End Rejections.

(** ** Verification submission *)

Section VerificationSubmission.
Import SignUpEmail.

(** C7 (amended). In [SignupEmailUsernamePassword], submitting a valid
    verification input from VERIFY_EMAIL with the collaborator loaded:
    when the attempt-verification call resolves with status [complete]
    the activate-session call is issued and the page goes to DONE if that
    call resolves; in every other case - another status, a rejected
    attempt, a rejected activation - the page goes to ERROR with a
    non-empty error text. *)
Theorem verification_submission_transitions
        (e : Env) (data : VerificationSchema) (st : Store) (clerk : Clerk) :
  isLoaded (hook e) = true -> signUp (hook e) = true ->
  state st = VERIFY_EMAIL ->
  Zod.success (Zod.safeParse verificationSchema data) = true ->
  exists p,
    SignUpEmailPage.submitVerification e data = Some p /\
    match clerk _ (signUp_attemptEmailAddressVerification (code data)) with
    | fulfilled r =>
        if strict_eq (status r) (str (lit "complete")) then
          calls (run clerk p st)
          = [ issued (signUp_attemptEmailAddressVerification (code data));
              issued (setActive (createdSessionId r)) ] /\
          match clerk _ (setActive (createdSessionId r)) with
          | fulfilled _ => state (final (run clerk p st)) = DONE
          | rejected _ =>
              state (final (run clerk p st)) = ERROR /\
              truthy (error (final (run clerk p st))) = true
          end
        else
          calls (run clerk p st)
          = [ issued (signUp_attemptEmailAddressVerification (code data)) ] /\
          state (final (run clerk p st)) = ERROR /\
          truthy (error (final (run clerk p st))) = true
    | rejected _ =>
        calls (run clerk p st)
        = [ issued (signUp_attemptEmailAddressVerification (code data)) ] /\
        state (final (run clerk p st)) = ERROR /\
        truthy (error (final (run clerk p st))) = true
    end.
Proof.
  intros Hl Hs _ Hvalid.
  exists (onVerification (hook e) data).
  split; [apply SignUpEmailFacts.submitVerification_valid; exact Hvalid|].
  destruct (clerk _ (signUp_attemptEmailAddressVerification (code data)))
    as [r|err] eqn:Hc.
  - destruct (strict_eq (status r) (str (lit "complete"))) eqn:Hst.
    + apply strict_eq_iff in Hst.
      rewrite (SignUpEmailFacts.onVerification_complete _ clerk Hl Hs _ st Hc Hst).
      cbn. split; [reflexivity|].
      destruct (clerk _ (setActive (createdSessionId r))); [reflexivity|].
      split; [reflexivity|]. cbn. apply error_text_truthy. discriminate.
    + assert (Hne : status r <> str (lit "complete")).
      { intros E. apply strict_eq_iff in E. congruence. }
      rewrite (SignUpEmailFacts.onVerification_other_status _ clerk Hl Hs _ st Hc Hne).
      repeat split.
  - rewrite (SignUpEmailFacts.onVerification_rejected _ clerk Hl Hs _ st Hc).
    cbn. repeat split. apply error_text_truthy. discriminate.
Qed.

Lemma verification_submission_transitions_witness :
  exists p,
    SignUpEmailPage.submitVerification Samples.env Samples.verification
    = Some p /\
    state (final (run (Samples.clerk Samples.needs_verification
                                     Samples.needs_verification
                                     Samples.completed (fulfilled tt))
                      p (setState VERIFY_EMAIL initial))) = DONE.
Proof.
  destruct (@verification_submission_transitions
              Samples.env Samples.verification
              (setState VERIFY_EMAIL initial)
              (Samples.clerk Samples.needs_verification
                             Samples.needs_verification
                             Samples.completed (fulfilled tt))
              eq_refl eq_refl eq_refl eq_refl) as [p [Hp H]].
  exists p. split; [exact Hp | exact (proj2 H)].
Defined.

(** C7 fails as stated: the attempt-verification call reports
    [complete], the activate-session call is issued and rejects, and the
    page ends in ERROR, not DONE. In [src/routes/sign-up.tsx] a
    [complete] report leads to DONE without any activate-session call,
    and a rejected attempt leads to ERROR with no error text. *)
Lemma verification_submission_counterexample :
  let clerk := Samples.clerk Samples.needs_verification
                             Samples.needs_verification
                             Samples.completed
                             (rejected Samples.plain_error) in
  let o := run clerk (onVerification Samples.loaded Samples.verification)
               (setState VERIFY_EMAIL initial) in
  Zod.success (Zod.safeParse verificationSchema Samples.verification) = true /\
  clerk _ (signUp_attemptEmailAddressVerification (code Samples.verification))
  = Samples.completed /\
  state (final o) = ERROR /\
  state (final o) <> DONE /\
  let verified := Samples.clerk Samples.needs_verification
                                Samples.needs_verification
                                Samples.completed (fulfilled tt) in
  let refused := Samples.clerk Samples.needs_verification
                               Samples.needs_verification
                               (rejected Samples.api_error) (fulfilled tt) in
  let start := SignUp.setState VERIFY_EMAIL SignUp.initial in
  let o1 := run verified
                (SignUp.onVerification Samples.loaded Samples.verification)
                start in
  let o2 := run refused
                (SignUp.onVerification Samples.loaded Samples.verification)
                start in
  SignUp.state (final o1) = DONE /\
  calls o1 = [ issued (signUp_attemptEmailAddressVerification
                         (code Samples.verification)) ] /\
  SignUp.state (final o2) = ERROR /\
  truthy (SignUp.err (final o2)) = false.
Proof.
  cbv zeta. repeat split; try reflexivity; vm_compute; discriminate.
Qed.
End VerificationSubmission.

(** ** Re-entrancy *)

Lemma advance_holds_while S (I : forall X, ClerkCall X -> S -> Prop)
      (F : S -> Prop) (p : Prog S unit) (st : S) :
  holds_while I F p st ->
  match snd (advance p st) with
  | None => F (fst (advance p st))
  | Some s =>
      I _ (awaited s) (fst (advance p st)) /\
      forall x, holds_while I F (resume s x) (fst (advance p st))
  end.
Proof.
  revert st. induction p as [a | e | X c k IH | u k IH]; intros st H; simpl in *.
  - exact H.
  - exact H.
  - exact H.
  - apply IH. exact H.
Qed.

Module SignUpEmailPageFacts.
Import SignUpEmail SignUpEmailPage.

Lemma onSignup_holds h data st :
  Idle st -> state st = READY ->
  holds_while Busy Idle (onSignup h data) st.
Proof.
  intros [Hc Hv] Hst. unfold onSignup, signup.
  destruct (negb (isLoaded h) || negb (signUp h)); cbn.
  - split; assumption.
  - split; [unfold Busy, Creating; cbn; auto|].
    intros [r|e]; cbn; [|split; auto].
    destruct (strict_eq (status r) (str (lit "missing_requirements"))); cbn.
    + split; [unfold Busy, Creating; cbn; auto|].
      intros [r'|e]; cbn; split; auto.
    + destruct (strict_eq (status r) (str (lit "complete"))); cbn.
      * split; [unfold Busy, Creating; cbn; auto|].
        intros [r'|e]; cbn; split; auto.
      * split; auto.
Qed.

Lemma onVerification_holds h data st :
  Idle st -> state st = VERIFY_EMAIL ->
  holds_while Busy Idle (onVerification h data) st.
Proof.
  intros [Hc Hv] Hst. unfold onVerification, verify.
  destruct (negb (isLoaded h) || negb (signUp h)); cbn.
  - split; assumption.
  - split; [unfold Busy, Verifying; cbn; auto|].
    intros [r|e]; cbn; [|split; auto].
    destruct (strict_eq (status r) (str (lit "complete"))); cbn.
    + split; [unfold Busy, Verifying; cbn; auto|].
      intros [r'|e]; cbn; split; auto.
    + split; auto.
Qed.

(** What a rendered view tells about the store. *)
Lemma render_signup_enabled e st :
  render e st = SignupFormView false ->
  state st = READY /\ isCreating st = false.
Proof.
  unfold render. destruct (negb (isLoaded (hook e))); [discriminate|].
  destruct (state st); try discriminate.
  intros H. injection H as H. apply orb_false_iff in H. tauto.
Qed.

Lemma render_verification_enabled e st :
  render e st = VerificationFormView false ->
  state st = VERIFY_EMAIL /\ isVerifying st = false.
Proof.
  unfold render. destruct (negb (isLoaded (hook e))); [discriminate|].
  destruct (state st); try discriminate.
  intros H. injection H as H. tauto.
Qed.

Lemma render_error e st shown : render e st = ErrorView shown -> state st = ERROR.
Proof.
  unfold render. destruct (negb (isLoaded (hook e))); [discriminate|].
  destruct (state st); try discriminate. reflexivity.
Qed.

Lemma Busy_phase X (c : ClerkCall X) st :
  Busy c st -> Creating st \/ Verifying st.
Proof. unfold Busy. destruct (kind_of c); tauto. Qed.

Lemma Busy_flag X (c : ClerkCall X) st :
  Busy c st -> in_flight_flag (kind_of c) st = true.
Proof.
  unfold Busy, in_flight_flag, Creating, Verifying.
  destruct (kind_of c); try tauto.
  intros [[-> _]|[-> [-> _]]]; reflexivity.
Qed.

Lemma Busy_disables X (c : ClerkCall X) st e :
  Busy c st -> submit_enabled render e st = false.
Proof.
  intros H. apply Busy_phase in H. unfold submit_enabled, render.
  destruct (negb (isLoaded (hook e))); [reflexivity|].
  destruct H as [[Hc [Hv Hs]]|[Hv [Hc Hs]]]; rewrite Hs.
  - rewrite Hc, orb_true_r. reflexivity.
  - rewrite Hv. reflexivity.
Qed.

(** A store in which a submit control accepts a click, or the error page
    shows, is not in the phase of a waiting handler. *)
Lemma Inv_quiet cfg :
  Inv cfg ->
  (state (store cfg) = READY /\ isCreating (store cfg) = false) \/
  (state (store cfg) = VERIFY_EMAIL /\ isVerifying (store cfg) = false) \/
  state (store cfg) = ERROR ->
  in_flight cfg = [] /\ Idle (store cfg).
Proof.
  unfold Inv. destruct (in_flight cfg) as [|s [|s' l]].
  - intros H _. split; [reflexivity | exact H].
  - intros [Hb _] Hq. exfalso. apply Busy_phase in Hb.
    unfold Creating, Verifying in Hb.
    destruct Hb as [[Hc [Hv Hs]]|[Hv [Hc Hs]]];
      destruct Hq as [[Hq1 Hq2]|[[Hq1 Hq2]|Hq1]]; congruence.
  - intros [].
Qed.

Lemma Inv_start p cfg :
  in_flight cfg = [] ->
  holds_while Busy Idle p (store cfg) ->
  Inv (start p cfg).
Proof.
  intros Hempty Hp. apply advance_holds_while in Hp.
  unfold Inv, start. simpl. rewrite Hempty. simpl.
  destruct (snd (advance p (store cfg))); simpl; exact Hp.
Qed.

Section Page.
Variable emailRegex : jsstring -> bool.

Lemma submitSignup_handler e values p :
  submitSignup emailRegex e values = Some p -> p = onSignup (hook e) values.
Proof.
  unfold submitSignup, handleSubmit.
  destruct (Zod.success _); congruence.
Qed.

Lemma submitVerification_handler e values p :
  submitVerification e values = Some p -> p = onVerification (hook e) values.
Proof.
  unfold submitVerification, handleSubmit.
  destruct (Zod.success _); congruence.
Qed.

Lemma Inv_step cfg cfg' : Inv cfg -> step emailRegex cfg cfg' -> Inv cfg'.
Proof.
  intros HI Hstep. unfold step in Hstep.
  destruct Hstep as [e values p cfg Hr Hp | e values p cfg Hr Hp
                     | e shown f cfg Hr Hf | cfg before s after x Hin].
  - apply render_signup_enabled in Hr.
    destruct (Inv_quiet cfg HI (or_introl Hr)) as [Hempty Hidle].
    apply submitSignup_handler in Hp. subst p.
    apply Inv_start; [assumption|].
    apply onSignup_holds; tauto.
  - apply render_verification_enabled in Hr.
    destruct (Inv_quiet cfg HI (or_intror (or_introl Hr))) as [Hempty Hidle].
    apply submitVerification_handler in Hp. subst p.
    apply Inv_start; [assumption|].
    apply onVerification_holds; tauto.
  - apply render_error in Hr.
    destruct (Inv_quiet cfg HI (or_intror (or_intror Hr))) as [Hempty Hidle].
    injection Hf as <-. unfold Inv. simpl. rewrite Hempty. exact Hidle.
  - unfold Inv in HI. rewrite Hin in HI.
    destruct before as [|b before]; simpl in HI.
    + destruct after as [|a after]; [|contradiction].
      destruct HI as [_ Hk]. specialize (Hk x).
      apply advance_holds_while in Hk.
      unfold Inv. simpl.
      destruct (snd (advance (resume s x) (store cfg))); simpl; exact Hk.
    + destruct before; simpl in HI; contradiction.
Qed.

Lemma Inv_reachable cfg : reachable emailRegex cfg -> Inv cfg.
Proof.
  unfold reachable. induction 1 as [|cfg cfg' _ IH Hstep].
  - unfold Inv. simpl. split; reflexivity.
  - eapply Inv_step; eassumption.
Qed.
End Page.
End SignUpEmailPageFacts.

Section Reentrancy.
Import SignUpEmail SignUpEmailPage.


Lemma submitted_once_reachable :
  reachable Samples.emailRegex Samples.submitted_once.
Proof.
  unfold reachable. eapply reachable_step; [apply reachable_init|].
  unfold Samples.submitted_once.
  apply (step_submit_signup render (submitSignup Samples.emailRegex)
                            submitVerification (Some onTryAgain)
                            Samples.env Samples.input);
    reflexivity.
Defined.


End Reentrancy.

(** * Further properties *)

(** ** Form validation *)

Lemma well_formed_OK : well_formed Zod.OK.
Proof. split; [discriminate | split; reflexivity]. Qed.

Lemma well_formed_fold_checks checks p s acc :
  well_formed acc ->
  well_formed (fold_left (Zod.add_issue p s) checks acc).
Proof.
  revert acc. induction checks as [|c cs IH]; intros acc Hacc; simpl.
  - exact Hacc.
  - apply IH. unfold Zod.add_issue.
    destruct (Zod.run_check c s); [|exact Hacc].
    destruct Hacc as [Hna _]. split; simpl.
    + destruct (Zod.status acc); simpl; congruence.
    + split.
      * destruct (Zod.status acc); simpl; congruence.
      * intros H. destruct (Zod.issues acc); discriminate.
Qed.

Lemma well_formed_zstring checks p s : well_formed (Zod.zstring checks p s).
Proof. apply well_formed_fold_checks. apply well_formed_OK. Qed.

Lemma well_formed_pipe A (a b : Zod.Schema A) p x :
  well_formed (a p x) -> well_formed (b p x) -> well_formed (Zod.pipe a b p x).
Proof.
  intros [Ha1 Ha2] [Hb1 Hb2]. unfold Zod.pipe.
  destruct (Zod.status (a p x)) eqn:E.
  - split; simpl; [assumption|].
    rewrite (proj1 Ha2 eq_refl). simpl. exact Hb2.
  - split; [congruence|]. rewrite E. exact Ha2.
  - congruence.
Qed.

Lemma well_formed_passwordSchema p s : well_formed (passwordSchema p s).
Proof.
  unfold passwordSchema.
  repeat apply well_formed_pipe; apply well_formed_zstring.
Qed.

Lemma well_formed_merge acc r :
  well_formed acc -> well_formed r ->
  well_formed {| Zod.status := Zod.merge_status (Zod.status acc) (Zod.status r);
                 Zod.issues := Zod.issues acc ++ Zod.issues r |}.
Proof.
  intros [Ha1 Ha2] [Hr1 Hr2]. split; simpl.
  - destruct (Zod.status acc), (Zod.status r); simpl; congruence.
  - split.
    + intros H.
      assert (Zod.status acc = Zod.valid /\ Zod.status r = Zod.valid) as [H1 H2].
      { destruct (Zod.status acc), (Zod.status r); simpl in H;
          try discriminate; split; reflexivity. }
      rewrite (proj1 Ha2 H1), (proj1 Hr2 H2). reflexivity.
    + intros H. apply app_eq_nil in H. destruct H as [H1 H2].
      rewrite (proj2 Ha2 H1), (proj2 Hr2 H2). reflexivity.
Qed.

Lemma well_formed_mergeObject fields :
  Forall well_formed fields -> well_formed (Zod.mergeObject fields).
Proof.
  unfold Zod.mergeObject. generalize well_formed_OK. generalize Zod.OK.
  induction fields as [|f fs IH]; intros acc Hacc Hf; simpl.
  - exact Hacc.
  - inversion Hf; subst. apply IH; [|assumption].
    apply well_formed_merge; assumption.
Qed.

Lemma well_formed_refine A (inner : Zod.Schema A) check msg sub p x :
  well_formed (inner p x) ->
  well_formed (Zod.refine inner check msg sub p x) /\
  Zod.issues (Zod.refine inner check msg sub p x)
  = Zod.issues (inner p x) ++ issue_at (p ++ sub) msg (check x).
Proof.
  intros [H1 H2]. unfold Zod.refine, issue_at.
  destruct (Zod.status (inner p x)) eqn:E; [| |congruence];
    destruct (check x); simpl; rewrite ?app_nil_r.
  - split; [split; [congruence | rewrite E; exact H2] | reflexivity].
  - split; [|reflexivity]. split; simpl; [discriminate|].
    split; [discriminate|].
    intros H. destruct (Zod.issues (inner p x)); discriminate.
  - split; [split; [congruence | rewrite E; exact H2] | reflexivity].
  - split; [|reflexivity]. split; simpl; [discriminate|].
    split; [discriminate|].
    intros H. destruct (Zod.issues (inner p x)); discriminate.
Qed.

Lemma error_at_issues A (sc : Zod.Schema A) x p :
  well_formed (sc [] x) ->
  Zod.error_at (Zod.safeParse sc x) p = has_issue_at p (Zod.issues (sc [] x)).
Proof.
  intros [H1 H2]. unfold Zod.safeParse, has_issue_at.
  destruct (Zod.status (sc [] x)) eqn:E; simpl; try reflexivity.
  rewrite (proj1 H2 eq_refl). reflexivity.
Qed.

Lemma success_no_issue A (sc : Zod.Schema A) x :
  well_formed (sc [] x) ->
  Zod.success (Zod.safeParse sc x) = true <-> Zod.issues (sc [] x) = [].
Proof.
  intros [H1 H2]. rewrite ZodFacts.success_valid. exact H2.
Qed.

Lemma zstring_one_issue c p s :
  Zod.issues (Zod.zstring [c] p s)
  = match Zod.run_check c s with
    | Some m => [ {| Zod.path := p; Zod.message := m |} ]
    | None => []
    end.
Proof.
  unfold Zod.zstring, Zod.add_issue. simpl.
  destruct (Zod.run_check c s); reflexivity.
Qed.

Lemma has_issue_at_app p a b :
  has_issue_at p (a ++ b) = has_issue_at p a || has_issue_at p b.
Proof. apply existsb_app. Qed.

Lemma has_issue_at_issue_at p q msg holds :
  has_issue_at p (issue_at q msg holds)
  = negb holds && Zod.path_eqb q p.
Proof.
  unfold has_issue_at, issue_at. destruct holds; simpl;
    [reflexivity | apply orb_false_r].
Qed.

Lemma has_issue_at_clean p q r :
  Zod.clean_at q r ->
  has_issue_at p (Zod.issues r)
  = negb (match Zod.issues r with [] => true | _ => false end)
    && Zod.path_eqb q p.
Proof.
  intros [_ Hf]. unfold has_issue_at.
  destruct (Zod.issues r) as [|i l]; [reflexivity|]. simpl.
  destruct (Zod.path_eqb q p) eqn:E.
  - apply Forall_inv in Hf. rewrite Hf, E. reflexivity.
  - change (has_issue_at p (i :: l) = false).
    apply ZodFacts.no_error_at_other.
    eapply Forall_impl; [|exact Hf]. simpl. intros a Ha Hp.
    assert (Zod.path_eqb q p = true)
      by (apply ZodFacts.path_eqb_eq; congruence).
    congruence.
Qed.

Lemma mergeObject_issues_fold fields acc :
  Zod.issues
    (fold_left
       (fun acc r =>
          {| Zod.status := Zod.merge_status (Zod.status acc) (Zod.status r);
             Zod.issues := Zod.issues acc ++ Zod.issues r |})
       fields acc)
  = Zod.issues acc ++ List.concat (map Zod.issues fields).
Proof.
  revert acc. induction fields as [|f fs IH]; intros acc; simpl.
  - symmetry. apply app_nil_r.
  - rewrite IH. simpl. symmetry. apply app_assoc.
Qed.

Lemma mergeObject_issues fields :
  Zod.issues (Zod.mergeObject fields) = List.concat (map Zod.issues fields).
Proof. unfold Zod.mergeObject. apply mergeObject_issues_fold. Qed.

Lemma well_formed_formObjectWithEmail re p d :
  well_formed (SignUpEmail.formObjectWithEmail re p d).
Proof.
  unfold SignUpEmail.formObjectWithEmail. apply well_formed_mergeObject.
  repeat apply Forall_cons; try apply Forall_nil;
    try apply well_formed_zstring; try apply well_formed_passwordSchema;
    apply well_formed_OK.
Qed.

Lemma well_formed_formObject p d : well_formed (SignUp.formObject p d).
Proof.
  unfold SignUp.formObject. apply well_formed_mergeObject.
  repeat apply Forall_cons; try apply Forall_nil;
    try apply well_formed_zstring; try apply well_formed_passwordSchema;
    apply well_formed_OK.
Qed.

Lemma min_issue n msg p s :
  Zod.issues (Zod.zstring [Zod.min n msg] p s)
  = issue_at p msg (n <=? List.length s).
Proof.
  rewrite zstring_one_issue. simpl. unfold issue_at.
  rewrite Nat.leb_antisym. destruct (List.length s <? n); reflexivity.
Qed.

Lemma email_issue re msg p s :
  Zod.issues (Zod.zstring [Zod.email re msg] p s) = issue_at p msg (re s).
Proof.
  rewrite zstring_one_issue. simpl. unfold issue_at.
  destruct (re s); reflexivity.
Qed.

Lemma formSchemaWithEmail_issues re d :
  well_formed (SignUpEmail.formSchemaWithEmail re [] d) /\
  Zod.issues (SignUpEmail.formSchemaWithEmail re [] d)
  = issue_at ["email"%string] "Please enter a valid email address"
             (re (SignUpEmail.email d))
    ++ issue_at ["username"%string] "Username must be at least 4 characters"
                (4 <=? List.length (SignUpEmail.username d))
    ++ Zod.issues (passwordSchema ["password"%string] (SignUpEmail.password d))
    ++ issue_at ["confirmPassword"%string] "Passwords don't match"
                (jsstring_eqb (SignUpEmail.password d)
                              (SignUpEmail.confirmPassword d))
    ++ issue_at ["tos"%string] "You must accept the terms of service"
                (SignUpEmail.tos d).
Proof.
  unfold SignUpEmail.formSchemaWithEmail.
  pose proof (well_formed_formObjectWithEmail re [] d) as H0.
  destruct (well_formed_refine
              (SignUpEmail.formObjectWithEmail re)
              (fun data => jsstring_eqb (SignUpEmail.password data)
                                        (SignUpEmail.confirmPassword data))
              "Passwords don't match" ["confirmPassword"%string] [] d H0)
    as [H1 E1].
  destruct (well_formed_refine _ (fun data => SignUpEmail.tos data)
              "You must accept the terms of service" ["tos"%string] [] d H1)
    as [H2 E2].
  split; [exact H2|].
  rewrite E2, E1. unfold SignUpEmail.formObjectWithEmail.
  rewrite mergeObject_issues. simpl List.concat.
  rewrite email_issue, min_issue. simpl.
  rewrite app_nil_r, <- !app_assoc. reflexivity.
Qed.

Lemma formSchema_issues d :
  well_formed (SignUp.formSchema [] d) /\
  Zod.issues (SignUp.formSchema [] d)
  = issue_at ["username"%string] "String must contain at least 4 character(s)"
             (4 <=? List.length (SignUp.username d))
    ++ Zod.issues (passwordSchema ["password"%string] (SignUp.password d))
    ++ issue_at ["confirmPassword"%string] "Passwords don't match"
                (jsstring_eqb (SignUp.password d) (SignUp.confirmPassword d))
    ++ issue_at ["tos"%string] "You must accept the terms of service"
                (SignUp.tos d).
Proof.
  unfold SignUp.formSchema.
  pose proof (well_formed_formObject [] d) as H0.
  destruct (well_formed_refine
              SignUp.formObject
              (fun data => jsstring_eqb (SignUp.password data)
                                        (SignUp.confirmPassword data))
              "Passwords don't match" ["confirmPassword"%string] [] d H0)
    as [H1 E1].
  destruct (well_formed_refine _ (fun data => SignUp.tos data)
              "You must accept the terms of service" ["tos"%string] [] d H1)
    as [H2 E2].
  split; [exact H2|].
  rewrite E2, E1. unfold SignUp.formObject.
  rewrite mergeObject_issues. simpl List.concat.
  rewrite min_issue. simpl.
  rewrite app_nil_r, <- !app_assoc. reflexivity.
Qed.

Lemma passwordSchema_no_issue p s :
  Zod.issues (passwordSchema p s) = [] <-> password_accepted s = true.
Proof.
  unfold password_accepted.
  rewrite ZodFacts.success_valid.
  rewrite <- (proj2 (well_formed_passwordSchema p s)).
  rewrite !passwordSchema_valid. tauto.
Qed.

Lemma has_issue_at_password p q s :
  has_issue_at p (Zod.issues (passwordSchema q s))
  = negb (password_accepted s) && Zod.path_eqb q p.
Proof.
  rewrite (has_issue_at_clean p (passwordSchema_clean q s)).
  f_equal. f_equal.
  destruct (password_accepted s) eqn:E.
  - apply (passwordSchema_no_issue q) in E. rewrite E. reflexivity.
  - destruct (Zod.issues (passwordSchema q s)) eqn:E'; [|reflexivity].
    apply (passwordSchema_no_issue q) in E'. congruence.
Qed.

Ltac eval_paths :=
  repeat match goal with
         | |- context [Zod.path_eqb ?a ?b] =>
             let v := eval vm_compute in (Zod.path_eqb a b) in
             change (Zod.path_eqb a b) with v
         end.

Ltac field_errors re d :=
  rewrite ?(error_at_issues (SignUpEmail.formSchemaWithEmail re) d _
                            (proj1 (formSchemaWithEmail_issues re d)));
  rewrite ?(proj2 (formSchemaWithEmail_issues re d));
  rewrite ?has_issue_at_app, ?has_issue_at_issue_at, ?has_issue_at_password;
  eval_paths;
  rewrite ?andb_false_r, ?andb_true_r, ?orb_false_r, ?orb_false_l.

Ltac field_errors' d :=
  rewrite ?(error_at_issues SignUp.formSchema d _
                            (proj1 (formSchema_issues d)));
  rewrite ?(proj2 (formSchema_issues d));
  rewrite ?has_issue_at_app, ?has_issue_at_issue_at, ?has_issue_at_password;
  eval_paths;
  rewrite ?andb_false_r, ?andb_true_r, ?orb_false_r, ?orb_false_l.

Lemma success_issue_free_email re d :
  Zod.success (Zod.safeParse (SignUpEmail.formSchemaWithEmail re) d)
  = re (SignUpEmail.email d)
    && (4 <=? List.length (SignUpEmail.username d))
    && password_accepted (SignUpEmail.password d)
    && jsstring_eqb (SignUpEmail.password d) (SignUpEmail.confirmPassword d)
    && SignUpEmail.tos d.
Proof.
  destruct (formSchemaWithEmail_issues re d) as [Hwf Hiss].
  pose proof (success_no_issue (SignUpEmail.formSchemaWithEmail re) d Hwf) as H.
  rewrite Hiss in H.
  pose proof (passwordSchema_no_issue ["password"%string] (SignUpEmail.password d)) as Hp.
  destruct (Zod.success _).
  - destruct H as [H _]. specialize (H eq_refl).
    repeat (apply app_eq_nil in H; destruct H as [? H]).
    unfold issue_at in *.
    destruct (re _); [|discriminate].
    destruct (4 <=? _); [|discriminate].
    destruct (jsstring_eqb _ _); [|discriminate].
    destruct (SignUpEmail.tos d); [|discriminate].
    rewrite (proj1 Hp); [reflexivity | assumption].
  - destruct H as [_ H].
    destruct (re _); [|reflexivity].
    destruct (4 <=? _); [|reflexivity].
    destruct (password_accepted _) eqn:Ea; [|reflexivity].
    destruct (jsstring_eqb _ _); [|reflexivity].
    destruct (SignUpEmail.tos d); [|reflexivity].
    rewrite (proj2 Hp eq_refl) in H. simpl in H.
    discriminate (H eq_refl).
Qed.

Lemma success_issue_free d :
  Zod.success (Zod.safeParse SignUp.formSchema d)
  = (4 <=? List.length (SignUp.username d))
    && password_accepted (SignUp.password d)
    && jsstring_eqb (SignUp.password d) (SignUp.confirmPassword d)
    && SignUp.tos d.
Proof.
  destruct (formSchema_issues d) as [Hwf Hiss].
  pose proof (success_no_issue SignUp.formSchema d Hwf) as H.
  rewrite Hiss in H.
  pose proof (passwordSchema_no_issue ["password"%string] (SignUp.password d)) as Hp.
  destruct (Zod.success _).
  - destruct H as [H _]. specialize (H eq_refl).
    repeat (apply app_eq_nil in H; destruct H as [? H]).
    unfold issue_at in *.
    destruct (4 <=? _); [|discriminate].
    destruct (jsstring_eqb _ _); [|discriminate].
    destruct (SignUp.tos d); [|discriminate].
    rewrite (proj1 Hp); [reflexivity | assumption].
  - destruct H as [_ H].
    destruct (4 <=? _); [|reflexivity].
    destruct (password_accepted _) eqn:Ea; [|reflexivity].
    destruct (jsstring_eqb _ _); [|reflexivity].
    destruct (SignUp.tos d); [|reflexivity].
    rewrite (proj2 Hp eq_refl) in H. simpl in H.
    discriminate (H eq_refl).
Qed.

(** X1. In both form schemas an error is reported on [tos] exactly when the
    box is not ticked, and an unticked box makes validation fail whatever
    the other fields hold. *)
Theorem tos_error_iff :
  (forall re (d : SignUpEmail.FormSchemaWithEmail),
      Zod.error_at (Zod.safeParse (SignUpEmail.formSchemaWithEmail re) d)
                   ["tos"%string] = negb (SignUpEmail.tos d) /\
      (SignUpEmail.tos d = false ->
       Zod.success (Zod.safeParse (SignUpEmail.formSchemaWithEmail re) d)
       = false)) /\
  (forall d : SignUp.FormSchema,
      Zod.error_at (Zod.safeParse SignUp.formSchema d) ["tos"%string]
      = negb (SignUp.tos d) /\
      (SignUp.tos d = false ->
       Zod.success (Zod.safeParse SignUp.formSchema d) = false)).
Proof.
  split.
  - intros re d. split.
    + field_errors re d. reflexivity.
    + intros H. rewrite success_issue_free_email, H. apply andb_false_r.
  - intros d. split.
    + field_errors' d. reflexivity.
    + intros H. rewrite success_issue_free, H. apply andb_false_r.
Qed.

Lemma tos_error_iff_witness :
  Zod.success
    (Zod.safeParse (SignUpEmail.formSchemaWithEmail Samples.emailRegex)
                   (SignUpEmail.useSignupFormWithEmail_defaultValues
                      Samples.rand_tilde)) = false.
Proof.
  exact (proj2 (proj1 tos_error_iff Samples.emailRegex
                      (SignUpEmail.useSignupFormWithEmail_defaultValues
                         Samples.rand_tilde))
               eq_refl).
Defined.

(** X2. [formSchemaWithEmail] accepts a form exactly when the e-mail
    matches zod's pattern, the username has at least 4 characters, the
    password satisfies the password policy, the confirmation equals the
    password and the terms are accepted; [formSchema] accepts on the last
    four conditions. *)
Theorem form_accepted_iff :
  (forall re (d : SignUpEmail.FormSchemaWithEmail),
      Zod.success (Zod.safeParse (SignUpEmail.formSchemaWithEmail re) d) = true
      <-> re (SignUpEmail.email d) = true /\
          4 <= List.length (SignUpEmail.username d) /\
          password_accepted (SignUpEmail.password d) = true /\
          SignUpEmail.confirmPassword d = SignUpEmail.password d /\
          SignUpEmail.tos d = true) /\
  (forall d : SignUp.FormSchema,
      Zod.success (Zod.safeParse SignUp.formSchema d) = true
      <-> 4 <= List.length (SignUp.username d) /\
          password_accepted (SignUp.password d) = true /\
          SignUp.confirmPassword d = SignUp.password d /\
          SignUp.tos d = true).
Proof.
  split.
  - intros re d. rewrite success_issue_free_email.
    rewrite !andb_true_iff, Nat.leb_le, jsstring_eqb_eq.
    intuition congruence.
  - intros d. rewrite success_issue_free.
    rewrite !andb_true_iff, Nat.leb_le, jsstring_eqb_eq.
    intuition congruence.
Qed.

(** X3. Each field rule of the form schemas reports on its own field: an
    error sits on [email] exactly when the address does not match the
    pattern, on [username] exactly when it is shorter than 4 characters,
    and on [password] exactly when the password fails the password policy,
    whatever the other fields hold. *)
Theorem field_error_attribution :
  (forall re (d : SignUpEmail.FormSchemaWithEmail),
      Zod.error_at (Zod.safeParse (SignUpEmail.formSchemaWithEmail re) d)
                   ["email"%string]
      = negb (re (SignUpEmail.email d)) /\
      Zod.error_at (Zod.safeParse (SignUpEmail.formSchemaWithEmail re) d)
                   ["username"%string]
      = (List.length (SignUpEmail.username d) <? 4) /\
      Zod.error_at (Zod.safeParse (SignUpEmail.formSchemaWithEmail re) d)
                   ["password"%string]
      = negb (password_accepted (SignUpEmail.password d))) /\
  (forall d : SignUp.FormSchema,
      Zod.error_at (Zod.safeParse SignUp.formSchema d) ["username"%string]
      = (List.length (SignUp.username d) <? 4) /\
      Zod.error_at (Zod.safeParse SignUp.formSchema d) ["password"%string]
      = negb (password_accepted (SignUp.password d))).
Proof.
  split.
  - intros re d. repeat split; field_errors re d; try reflexivity.
    rewrite Nat.ltb_antisym. reflexivity.
  - intros d. repeat split; field_errors' d; try reflexivity.
    rewrite Nat.ltb_antisym. reflexivity.
Qed.

(** X4. A form that [formSchemaWithEmail] rejects carries an error on at
    least one of its five fields, and a form it accepts on none: the
    result is a success exactly when no field has an error. *)
Theorem rejected_form_has_field_error
        (re : jsstring -> bool) (d : SignUpEmail.FormSchemaWithEmail) :
  let r := Zod.safeParse (SignUpEmail.formSchemaWithEmail re) d in
  Zod.success r
  = negb (Zod.error_at r ["email"%string]
          || Zod.error_at r ["username"%string]
          || Zod.error_at r ["password"%string]
          || Zod.error_at r ["confirmPassword"%string]
          || Zod.error_at r ["tos"%string]).
Proof.
  cbv zeta. rewrite success_issue_free_email.
  field_errors re d. rewrite Nat.leb_antisym.
  destruct (re _), (List.length _ <? 4), (password_accepted _),
    (jsstring_eqb _ _), (SignUpEmail.tos d); reflexivity.
Qed.

(** X5. The default values [useSignupFormWithEmail] installs never pass
    validation, whatever password was generated: the terms are not
    accepted. The e-mail, when it matches the pattern, the username and the
    confirmation raise no error, so the only other possible error is on the
    generated password. *)
Theorem default_values_rejected (re : jsstring -> bool) (rand : nat -> N) :
  let r := Zod.safeParse (SignUpEmail.formSchemaWithEmail re)
                         (SignUpEmail.useSignupFormWithEmail_defaultValues rand) in
  Zod.success r = false /\
  Zod.error_at r ["tos"%string] = true /\
  Zod.error_at r ["username"%string] = false /\
  Zod.error_at r ["confirmPassword"%string] = false /\
  Zod.error_at r ["email"%string] = negb (re (lit "test@example.com")) /\
  Zod.error_at r ["password"%string]
  = negb (password_accepted (generateRandomPassword rand)).
Proof.
  cbv zeta. split.
  - rewrite success_issue_free_email. simpl. apply andb_false_r.
  - repeat split;
      field_errors re (SignUpEmail.useSignupFormWithEmail_defaultValues rand);
      simpl; rewrite ?jsstring_eqb_refl; reflexivity.
Qed.

(** ** Password policy, continued *)

(** X6. A password that fails [passwordSchema] gets exactly one issue: the
    one of the first requirement it misses, in the order length, lowercase,
    uppercase, number, special character; later requirements are not
    reported until the earlier ones are met. *)
Theorem passwordSchema_reports_first_failure (p : list string) (s : jsstring) :
  Zod.issues (passwordSchema p s)
  = match first_failed_requirement s with
    | None => []
    | Some m => [ {| Zod.path := p; Zod.message := m |} ]
    end.
Proof.
  unfold first_failed_requirement, passwordSchema, Zod.pipe,
    passwordRequirementSchemas.charLength,
    passwordRequirementSchemas.oneLowercase,
    passwordRequirementSchemas.oneUppercase,
    passwordRequirementSchemas.oneNumber,
    passwordRequirementSchemas.oneSpecial,
    Zod.zstring, Zod.add_issue, Zod.run_check, fold_left.
  destruct (List.length s <? 8) eqn:E8; simpl.
  - destruct (12 <? List.length s) eqn:E12; simpl; [|reflexivity].
    apply Nat.ltb_lt in E8, E12. lia.
  - destruct (12 <? List.length s); simpl; [reflexivity|].
    destruct (Zod.test lowercase_re s); simpl; [|reflexivity].
    destruct (Zod.test uppercase_re s); simpl; [|reflexivity].
    destruct (Zod.test digit_re s); simpl; [|reflexivity].
    destruct (Zod.test special_re s); simpl; reflexivity.
Qed.

Lemma special_within_alphabet (c : code_unit) :
  In c characters ->
  (special_character c <-> generated_special_character c).
Proof.
  intros Hc. unfold special_character, generated_special_character.
  rewrite <- !one_of_spec.
  assert (H : forallb (fun c => Bool.eqb (one_of special_characters c)
                                         (one_of (lit "!@-#$") c))
                      characters = true) by (vm_compute; reflexivity).
  rewrite forallb_forall in H. specialize (H c Hc).
  apply Bool.eqb_prop in H. rewrite H. tauto.
Qed.

(** X7. A generated password always meets the length requirement, and it
    passes [passwordSchema] exactly when it contains a lowercase letter, an
    uppercase letter, a digit and one of the five characters [!@-#$]; the
    tilde, the sixth symbol of the alphabet, never helps. *)
Theorem generated_password_accepted_iff (rand : nat -> N) :
  Zod.status (passwordRequirementSchemas.charLength [] (generateRandomPassword rand))
  = Zod.valid /\
  (password_accepted (generateRandomPassword rand) = true <->
   contains lowercase_letter (generateRandomPassword rand) /\
   contains uppercase_letter (generateRandomPassword rand) /\
   contains digit (generateRandomPassword rand) /\
   contains generated_special_character (generateRandomPassword rand)).
Proof.
  destruct (generateRandomPassword_shape rand) as [Hlen Hin].
  split.
  - apply charLength_valid. lia.
  - unfold password_accepted.
    rewrite ZodFacts.success_valid, passwordSchema_valid, Hlen.
    assert (Hs : contains special_character (generateRandomPassword rand) <->
                 contains generated_special_character (generateRandomPassword rand)).
    { rewrite Forall_forall in Hin. unfold contains.
      split; intros [c [Hc Hp]]; exists c; split; try assumption;
        apply (special_within_alphabet (Hin c Hc)); assumption. }
    rewrite Hs. intuition lia.
Qed.

(** ** The operations of the e-mail route *)

Section EmailOperations.
Import SignUpEmail.

Lemma guard_closed h :
  guard_open h = false -> negb (isLoaded h) || negb (signUp h) = true.
Proof. unfold guard_open. destruct (isLoaded h), (signUp h); simpl; congruence. Qed.

Lemma guard_opened h :
  guard_open h = true -> negb (isLoaded h) || negb (signUp h) = false.
Proof. unfold guard_open. destruct (isLoaded h), (signUp h); simpl; congruence. Qed.

(** X8. Unless the collaborator is loaded and its sign-up object defined,
    [signup] and [verify] of [useClerkSignupWithEmail] call nothing, change
    nothing and return the failure "Clerk not loaded"; this covers a
    loaded collaborator whose sign-up object is still undefined. *)
Theorem guard_closed_no_call (h : UseSignUp) (clerk : Clerk) :
  guard_open h = false ->
  (forall data st,
      run clerk (signup h data) st
      = {| final := st; calls := [];
           result := inl (Result.failure (str (lit "Clerk not loaded"))) |}) /\
  (forall code st,
      run clerk (verify h code) st
      = {| final := st; calls := [];
           result := inl (Result.failure (str (lit "Clerk not loaded"))) |}).
Proof.
  intros Hg. apply guard_closed in Hg.
  split; intros; unfold run, signup, verify; rewrite Hg; reflexivity.
Qed.

Lemma guard_closed_no_call_witness :
  calls (run (Samples.clerk Samples.completed Samples.completed
                            Samples.completed (fulfilled tt))
             (signup {| isLoaded := true; signUp := false |} Samples.input)
             initial) = [].
Proof.
  rewrite (proj1 (@guard_closed_no_call
                    {| isLoaded := true; signUp := false |}
                    (Samples.clerk Samples.completed Samples.completed
                                   Samples.completed (fulfilled tt))
                    eq_refl)).
  reflexivity.
Defined.

(** X9. [signup] never throws: whatever the collaborator does, it returns
    a result, and the result carries a non-empty error text exactly when it
    is a failure. When it has run past the guard [isCreating] is cleared,
    also after a rejection; the other cells of the store are as before. *)
Theorem signup_always_returns
        (h : UseSignUp) (clerk : Clerk) (data : FormSchemaWithEmail)
        (st : Store) :
  exists r,
    result (run clerk (signup h data) st) = inl r /\
    truthy (Result.error r) = negb (Result.success r) /\
    isCreating (final (run clerk (signup h data) st))
    = (if guard_open h then false else isCreating st) /\
    isVerifying (final (run clerk (signup h data) st)) = isVerifying st /\
    same_page (final (run clerk (signup h data) st)) st.
Proof.
  unfold run, signup, same_page.
  destruct (guard_open h) eqn:Hg;
    [rewrite (guard_opened _ Hg) | rewrite (guard_closed _ Hg)]; cbn.
  - destruct (clerk _ (signUp_create (email data) (password data) (username data)))
      as [r|e]; cbn.
    + destruct (strict_eq (status r) (str (lit "missing_requirements"))); cbn.
      * destruct (clerk _ (signUp_prepareEmailAddressVerification (lit "email_code")))
          as [r'|e]; cbn; eexists; repeat split;
          cbn; apply error_text_truthy; discriminate.
      * destruct (strict_eq (status r) (str (lit "complete"))); cbn.
        -- destruct (clerk _ (setActive (createdSessionId r))) as [u|e]; cbn;
             eexists; repeat split; cbn; apply error_text_truthy; discriminate.
        -- eexists; repeat split.
    + eexists; repeat split. cbn. apply error_text_truthy. discriminate.
  - eexists; repeat split.
Qed.

(** X10. [verify] never throws either: it returns a result whose error
    text is non-empty exactly when it is a failure, [isVerifying] is
    cleared once it has run past the guard, and the other cells of the
    store are as before. *)
Theorem verify_always_returns
        (h : UseSignUp) (clerk : Clerk) (code : jsstring) (st : Store) :
  exists r,
    result (run clerk (verify h code) st) = inl r /\
    truthy (Result.error r) = negb (Result.success r) /\
    isVerifying (final (run clerk (verify h code) st))
    = (if guard_open h then false else isVerifying st) /\
    isCreating (final (run clerk (verify h code) st)) = isCreating st /\
    same_page (final (run clerk (verify h code) st)) st.
Proof.
  unfold run, verify, same_page.
  destruct (guard_open h) eqn:Hg;
    [rewrite (guard_opened _ Hg) | rewrite (guard_closed _ Hg)]; cbn.
  - destruct (clerk _ (signUp_attemptEmailAddressVerification code))
      as [r|e]; cbn.
    + destruct (strict_eq (status r) (str (lit "complete"))); cbn.
      * destruct (clerk _ (setActive (createdSessionId r))) as [u|e]; cbn;
          eexists; repeat split; cbn; apply error_text_truthy; discriminate.
      * eexists; repeat split.
    + eexists; repeat split. cbn. apply error_text_truthy. discriminate.
  - eexists; repeat split.
Qed.

(** X11. Past the guard [signup] issues the create-signup call first and
    at most one call after it: the prepare-verification call when the
    reported status is [missing_requirements], the activate-session call,
    for the session the create-signup call returned, when it is [complete],
    and nothing after another status or a rejection. It never attempts a
    verification. *)
Theorem signup_call_sequence
        (h : UseSignUp) (clerk : Clerk) (data : FormSchemaWithEmail)
        (st : Store) :
  calls (run clerk (signup h data) st)
  = if guard_open h then
      issued (signUp_create (email data) (password data) (username data))
      :: match clerk _ (signUp_create (email data) (password data)
                                      (username data)) with
         | fulfilled r =>
             if strict_eq (status r) (str (lit "missing_requirements")) then
               [ issued (signUp_prepareEmailAddressVerification
                           (lit "email_code")) ]
             else if strict_eq (status r) (str (lit "complete")) then
               [ issued (setActive (createdSessionId r)) ]
             else []
         | rejected _ => []
         end
    else [].
Proof.
  unfold run, signup.
  destruct (guard_open h) eqn:Hg;
    [rewrite (guard_opened _ Hg) | rewrite (guard_closed _ Hg)]; cbn;
    [|reflexivity].
  destruct (clerk _ (signUp_create (email data) (password data) (username data)))
    as [r|e]; cbn; [|reflexivity].
  destruct (strict_eq (status r) (str (lit "missing_requirements"))); cbn.
  - destruct (clerk _ (signUp_prepareEmailAddressVerification (lit "email_code")));
      reflexivity.
  - destruct (strict_eq (status r) (str (lit "complete"))); cbn; [|reflexivity].
    destruct (clerk _ (setActive (createdSessionId r))); reflexivity.
Qed.

(** X12. Past the guard [verify] issues the attempt-verification call with
    the code it was given and, only when the reported status is
    [complete], the activate-session call for the session that call
    returned. It never creates a signup nor prepares a verification. *)
Theorem verify_call_sequence
        (h : UseSignUp) (clerk : Clerk) (code : jsstring) (st : Store) :
  calls (run clerk (verify h code) st)
  = if guard_open h then
      issued (signUp_attemptEmailAddressVerification code)
      :: match clerk _ (signUp_attemptEmailAddressVerification code) with
         | fulfilled r =>
             if strict_eq (status r) (str (lit "complete")) then
               [ issued (setActive (createdSessionId r)) ]
             else []
         | rejected _ => []
         end
    else [].
Proof.
  unfold run, verify.
  destruct (guard_open h) eqn:Hg;
    [rewrite (guard_opened _ Hg) | rewrite (guard_closed _ Hg)]; cbn;
    [|reflexivity].
  destruct (clerk _ (signUp_attemptEmailAddressVerification code))
    as [r|e]; cbn; [|reflexivity].
  destruct (strict_eq (status r) (str (lit "complete"))); cbn; [|reflexivity].
  destruct (clerk _ (setActive (createdSessionId r))); reflexivity.
Qed.
End EmailOperations.

(** ** The operations of [src/routes/sign-up.tsx] *)

Section SignUpOperations.
Import SignUp.



(** X15. [onVerification] of [Signup] takes the page to DONE exactly when
    the attempt-verification call resolves with status [complete], and to
    ERROR otherwise, also when the collaborator is not loaded. It issues
    no other call, so no session is activated, and it never writes [err]:
    the error page shows whatever an earlier signup left there. *)
Theorem onVerification_outcome
        (h : UseSignUp) (clerk : Clerk) (data : VerificationSchema)
        (st : Store) :
  let o := run clerk (onVerification h data) st in
  let attempt := clerk _ (signUp_attemptEmailAddressVerification (code data)) in
  result o = inl tt /\
  state (final o)
  = (if isLoaded h && signUp h then
       match attempt with
       | fulfilled r =>
           if strict_eq (status r) (str (lit "complete")) then DONE else ERROR
       | rejected _ => ERROR
       end
     else ERROR) /\
  err (final o) = err st /\
  calls o
  = (if isLoaded h && signUp h then
       [ issued (signUp_attemptEmailAddressVerification (code data)) ]
     else []).
Proof.
  cbv zeta. unfold run, onVerification, verify, on_signUp.
  destruct (isLoaded h), (signUp h); cbn; try (repeat split; reflexivity).
  destruct (clerk _ (signUp_attemptEmailAddressVerification (code data)))
    as [r|e]; cbn; [|repeat split; reflexivity].
  destruct (strict_eq (status r) (str (lit "complete"))); cbn;
    repeat split; reflexivity.
Qed.
End SignUpOperations.

(** ** The page of the e-mail route *)

Module SignUpEmailInvariants.
Import SignUpEmail SignUpEmailPage.

Lemma keeps_start S (P : S -> Prop) (p : Prog S unit) (cfg : Config S) :
  in_flight cfg = [] ->
  holds_while (fun _ _ => P) P p (store cfg) ->
  keeps P (start p cfg).
Proof.
  intros Hempty Hp. apply advance_holds_while in Hp.
  unfold keeps, start. simpl. rewrite Hempty. simpl.
  destruct (snd (advance p (store cfg))); simpl.
  - destruct Hp as [H1 H2]. split; [exact H1|]. repeat constructor. exact H2.
  - split; [exact Hp | constructor].
Qed.

Section Principle.
Variable P : Store -> Prop.
Hypothesis P_initial : P initial.
Hypothesis P_onSignup :
  forall h data st, P st -> Idle st -> state st = READY ->
                    holds_while (fun _ _ => P) P (onSignup h data) st.
Hypothesis P_onVerification :
  forall h data st, P st -> Idle st -> state st = VERIFY_EMAIL ->
                    holds_while (fun _ _ => P) P (onVerification h data) st.
Hypothesis P_onTryAgain :
  forall st, P st -> Idle st -> state st = ERROR -> P (onTryAgain st).

(** An induction principle for the page: what holds initially and is kept
    by the three handlers holds in every reachable configuration. *)
Lemma page_invariant re cfg : reachable re cfg -> keeps P cfg.
Proof.
  unfold reachable. induction 1 as [|cfg cfg' Hreach IH Hstep].
  - split; [exact P_initial | constructor].
  - pose proof (SignUpEmailPageFacts.Inv_reachable Hreach) as HI.
    destruct IH as [HP Hk].
    destruct Hstep as [e values p cfg Hr Hp | e values p cfg Hr Hp
                       | e shown f cfg Hr Hf | cfg before s after x Hin].
    + apply SignUpEmailPageFacts.render_signup_enabled in Hr.
      destruct (SignUpEmailPageFacts.Inv_quiet cfg HI (or_introl Hr))
        as [Hempty Hidle].
      apply SignUpEmailPageFacts.submitSignup_handler in Hp. subst p.
      apply keeps_start; [assumption|].
      apply P_onSignup; tauto.
    + apply SignUpEmailPageFacts.render_verification_enabled in Hr.
      destruct (SignUpEmailPageFacts.Inv_quiet cfg HI (or_intror (or_introl Hr)))
        as [Hempty Hidle].
      apply SignUpEmailPageFacts.submitVerification_handler in Hp. subst p.
      apply keeps_start; [assumption|].
      apply P_onVerification; tauto.
    + apply SignUpEmailPageFacts.render_error in Hr.
      destruct (SignUpEmailPageFacts.Inv_quiet cfg HI (or_intror (or_intror Hr)))
        as [Hempty Hidle].
      injection Hf as <-. unfold keeps. simpl. rewrite Hempty.
      split; [apply P_onTryAgain; assumption | constructor].
    + unfold Inv in HI. rewrite Hin in HI, Hk.
      destruct before as [|b before]; simpl in HI.
      * destruct after as [|a after]; [|contradiction].
        simpl in Hk. apply Forall_inv in Hk. specialize (Hk x).
        apply advance_holds_while in Hk.
        unfold keeps. simpl.
        destruct (snd (advance (resume s x) (store cfg))); simpl.
        -- destruct Hk as [H1 H2]. split; [exact H1|].
           repeat constructor. exact H2.
        -- split; [exact Hk | constructor].
      * destruct before; simpl in HI; contradiction.
Qed.
End Principle.

Lemma Shown_failure st msg :
  truthy msg = true -> Shown (setState ERROR (setError msg st)).
Proof.
  intros H. split; [exact H | discriminate].
Qed.

Lemma Shown_onSignup h data st :
  Shown st -> Idle st -> state st = READY ->
  holds_while (fun _ _ => Shown) Shown (onSignup h data) st.
Proof.
  intros _ _ Hst. unfold onSignup, signup.
  assert (Hready : forall b, Shown (setIsCreating b (setError null st))).
  { intros b. split; unfold ErrorInStep; cbn; rewrite Hst;
      [reflexivity | discriminate]. }
  destruct (negb (isLoaded h) || negb (signUp h)); cbn.
  - split; [reflexivity | discriminate].
  - split; [apply (Hready true)|].
    intros [r|e]; cbn;
      [|split; [cbn; apply error_text_truthy; discriminate | discriminate]].
    destruct (strict_eq (status r) (str (lit "missing_requirements"))); cbn.
    + split; [apply (Hready true)|].
      intros [r'|e]; cbn; split; try discriminate; try reflexivity.
      cbn. apply error_text_truthy. discriminate.
    + destruct (strict_eq (status r) (str (lit "complete"))); cbn.
      * split; [apply (Hready true)|].
        intros [r'|e]; cbn; split; try discriminate; try reflexivity.
        cbn. apply error_text_truthy. discriminate.
      * split; [reflexivity | discriminate].
Qed.

Lemma Shown_onVerification h data st :
  Shown st -> Idle st -> state st = VERIFY_EMAIL ->
  holds_while (fun _ _ => Shown) Shown (onVerification h data) st.
Proof.
  intros _ _ Hst. unfold onVerification, verify.
  assert (Hready : forall b, Shown (setIsVerifying b (setError null st))).
  { intros b. split; unfold ErrorInStep; cbn; rewrite Hst;
      [reflexivity | discriminate]. }
  destruct (negb (isLoaded h) || negb (signUp h)); cbn.
  - split; [reflexivity | discriminate].
  - split; [apply (Hready true)|].
    intros [r|e]; cbn;
      [|split; [cbn; apply error_text_truthy; discriminate | discriminate]].
    destruct (strict_eq (status r) (str (lit "complete"))); cbn.
    + split; [apply (Hready true)|].
      intros [r'|e]; cbn; split; try discriminate; try reflexivity.
      cbn. apply error_text_truthy. discriminate.
    + split; [reflexivity | discriminate].
Qed.

Lemma Shown_reachable re cfg : reachable re cfg -> Shown (store cfg).
Proof.
  intros H.
  assert (K : keeps Shown cfg).
  { apply (@page_invariant Shown) with (re := re); [| | | |exact H].
    - split; [reflexivity | discriminate].
    - exact Shown_onSignup.
    - exact Shown_onVerification.
    - intros st _ _ _. split; [reflexivity | discriminate]. }
  exact (proj1 K).
Qed.
End SignUpEmailInvariants.

Lemma settle_next_reachable re clerk cfg :
  SignUpEmailPage.reachable re cfg ->
  SignUpEmailPage.reachable re (settle_next clerk cfg).
Proof.
  intros H. unfold settle_next.
  destruct (in_flight cfg) as [|s after] eqn:E; [exact H|].
  unfold SignUpEmailPage.reachable. eapply reachable_step; [exact H|].
  apply (step_settle SignUpEmail.render (SignUpEmailPage.submitSignup re)
                     SignUpEmailPage.submitVerification
                     (Some SignUpEmail.onTryAgain)
                     cfg [] s after (clerk _ (awaited s))).
  exact E.
Qed.

Lemma failed_once_reachable :
  SignUpEmailPage.reachable Samples.emailRegex MoreSamples.failed_once.
Proof. apply settle_next_reachable. exact submitted_once_reachable. Qed.

Lemma signed_up_reachable :
  SignUpEmailPage.reachable Samples.emailRegex MoreSamples.signed_up.
Proof.
  do 2 apply settle_next_reachable. exact submitted_once_reachable.
Qed.

Section EmailPage.
Import SignUpEmail SignUpEmailPage.










End EmailPage.

(** ** The page of [src/routes/sign-up.tsx] *)

Lemma advance_preserves S (P : S -> Prop) (p : Prog S unit) (st : S) :
  preserves P p -> P st ->
  P (fst (advance p st)) /\
  Forall (fun s => forall x, preserves P (resume s x))
         (suspended (snd (advance p st))).
Proof.
  revert st. induction p as [a | e | X c k IH | u k IH]; intros st Hp Hst; simpl in *.
  - split; [exact Hst | constructor].
  - split; [exact Hst | constructor].
  - split; [exact Hst | repeat constructor; exact Hp].
  - destruct Hp as [Hu Hk]. apply IH; [exact Hk | apply Hu; exact Hst].
Qed.

Section SignUpPageFacts.
Import SignUp.

Ltac preserved :=
  repeat (cbn;
          match goal with
          | |- True => exact I
          | |- _ /\ _ => split
          | |- forall st, Declared_only st -> _ =>
              let H1 := fresh in
              let H2 := fresh in
              intros ? [H1 H2]; split; cbn; solve [assumption | discriminate]
          | |- forall x : Settled _, _ => intros [?|?]
          | |- context [strict_eq ?a ?b] => destruct (strict_eq a b)
          end).

Lemma onSignup_preserves h data : preserves Declared_only (onSignup h data).
Proof.
  unfold onSignup, signup, on_signUp.
  destruct (isLoaded h), (signUp h); preserved.
Qed.

Lemma onVerification_preserves h data :
  preserves Declared_only (onVerification h data).
Proof.
  unfold onVerification, verify, on_signUp.
  destruct (isLoaded h), (signUp h); preserved.
Qed.

Lemma Declared_only_reachable cfg :
  SignUpPage.reachable cfg ->
  Declared_only (store cfg) /\
  Forall (fun s => forall x, preserves Declared_only (resume s x))
         (in_flight cfg).
Proof.
  unfold SignUpPage.reachable. induction 1 as [|cfg cfg' _ [IH1 IH2] Hstep].
  - split; [split; discriminate | constructor].
  - destruct Hstep as [e values p cfg Hr Hp | e values p cfg Hr Hp
                       | e shown f cfg Hr Hf | cfg before s after x Hin].
    + unfold SignUpPage.submitSignup, handleSubmit in Hp.
      injection Hp as <-.
      destruct (advance_preserves Declared_only _ (store cfg)
                                  (onSignup_preserves e values) IH1) as [H1 H2].
      unfold start. simpl. split; [exact H1|].
      apply Forall_app. split; assumption.
    + unfold SignUpPage.submitVerification, handleSubmit in Hp.
      destruct (Zod.success _); [|discriminate]. injection Hp as <-.
      destruct (advance_preserves Declared_only _ (store cfg)
                                  (onVerification_preserves e values) IH1)
        as [H1 H2].
      unfold start. simpl. split; [exact H1|].
      apply Forall_app. split; assumption.
    + discriminate.
    + rewrite Hin in IH2. apply Forall_app in IH2. destruct IH2 as [Hb Hsa].
      inversion Hsa as [|? ? Hs Ha]; subst.
      destruct (advance_preserves Declared_only _ (store cfg) (Hs x) IH1)
        as [H1 H2].
      simpl. split; [exact H1|].
      apply Forall_app. split; [exact Hb|].
      apply Forall_app. split; assumption.
Qed.

(** X21. The page of [src/routes/sign-up.tsx] never enters the LOADING
    state, so its last return, the "Loading..." page, is never rendered,
    and its hook never takes the [success] state it declares; this holds
    however many submissions are in flight at once. *)
Theorem declared_states_never_set (cfg : Config Store) :
  SignUpPage.reachable cfg ->
  state (store cfg) <> LOADING /\
  hook_state (store cfg) <> hook_success /\
  render (store cfg) <> LoadingView.
Proof.
  intros H. apply Declared_only_reachable in H.
  destruct H as [[H1 H2] _]. repeat split; try assumption.
  unfold render. destruct (state (store cfg)); try discriminate. contradiction.
Qed.

Lemma declared_states_never_set_witness :
  state (store Samples.submitted_twice) <> LOADING.
Proof.
  refine (proj1 (@declared_states_never_set Samples.submitted_twice _)).
  unfold SignUpPage.reachable, Samples.submitted_twice.
  eapply reachable_step.
  - eapply reachable_step; [apply reachable_init|].
    apply (step_submit_signup (fun _ : UseSignUp => render)
                              SignUpPage.submitSignup
                              SignUpPage.submitVerification None
                              Samples.loaded Samples.input');
      reflexivity.
  - apply (step_submit_signup (fun _ : UseSignUp => render)
                              SignUpPage.submitSignup
                              SignUpPage.submitVerification None
                              Samples.loaded Samples.input');
      reflexivity.
Defined.

(** X22. The error page of [src/routes/sign-up.tsx] is a dead end for the
    user, and so is its success page: in ERROR or DONE with no call in
    flight the page reacts to no event at all; there is no retry. *)
Theorem no_way_back (cfg : Config Store) :
  state (store cfg) = ERROR \/ state (store cfg) = DONE ->
  in_flight cfg = [] ->
  forall cfg', ~ SignUpPage.step cfg cfg'.
Proof.
  intros Hst Hempty cfg' Hstep. unfold SignUpPage.step in Hstep.
  destruct Hstep as [e values p cfg Hr Hp | e values p cfg Hr Hp
                     | e shown f cfg Hr Hf | cfg before s after x Hin].
  - unfold render in Hr. destruct Hst as [Hst|Hst]; rewrite Hst in Hr; discriminate.
  - unfold render in Hr. destruct Hst as [Hst|Hst]; rewrite Hst in Hr; discriminate.
  - discriminate.
  - rewrite Hempty in Hin. destruct before; discriminate.
Qed.

Lemma no_way_back_witness :
  state (store MoreSamples'.failed_once) = ERROR /\
  in_flight MoreSamples'.failed_once = [] /\
  forall cfg', ~ SignUpPage.step MoreSamples'.failed_once cfg'.
Proof.
  split; [reflexivity|]. split; [reflexivity|].
  exact (@no_way_back MoreSamples'.failed_once (or_introl eq_refl) eq_refl).
Defined.
End SignUpPageFacts.
